(** * go-utils-firestore: the document accessors [dao.DAO] and [cruds.CRUDS]

    A shallow embedding of the two Firestore accessors of the repository
    (the "rich" [DAO] of package [dao] and the "plain" [CRUDS] of package
    [cruds]) together with the properties their specification states.

    The accessors are stateless translators in front of a remote backend.
    Every interaction with the outside (the Firestore client, the clock,
    the logger, the order in which Go ranges over a map) is an operation
    [op] answered by an environment; an accessor method is a program
    [prog] over these operations, and [run] executes it against an
    environment while recording the operations it performed. *)

From Stdlib Require Import ZArith NArith Ascii String List.
From stdpp Require Import base option list strings gmap.

(** ** Strings *)

Module Strings.

(** [strings.ToUpper] on the bytes of a string: the ASCII letters
    [a]..[z] are moved to [A]..[Z], every other byte is kept. Go maps the
    runes outside ASCII through the Unicode tables as well; none of them
    has one of the letters E, Q, N, L, T, G as its upper case, so the
    switch of [fro] below selects the same branch. *)
Definition upper_byte (a : ascii) : ascii :=
  let n := N_of_ascii a in
  if ((97 <=? n) && (n <=? 122))%N then ascii_of_N (n - 32) else a.

Fixpoint ToUpper (s : string) : string :=
  match s with
  | EmptyString => EmptyString
  | String a s' => String (upper_byte a) (ToUpper s')
  end.

End Strings.

(** ** Predicate translator ([fro], package [dao]) *)

(** [fro]: Firestore Relational Operator. *)
Definition fro (input : string) : string :=
  let u := Strings.ToUpper input in
  if String.eqb u "EQ" then "=="
  else if String.eqb u "NE" then "!="
  else if String.eqb u "LT" then "<"
  else if String.eqb u "GT" then ">"
  else if String.eqb u "LE" then "<="
  else if String.eqb u "GE" then ">="
  else "UNKNOWN".

(** The operator tokens of the specification and their native spelling. *)
Definition operator_table : list (string * string) :=
  [("EQ", "=="); ("NE", "!="); ("LT", "<"); ("GT", ">"); ("LE", "<="); ("GE", ">=")].

(** ** Errors *)

(** The gRPC status codes, [google.golang.org/grpc/codes]. *)
Module codes.
Inductive Code : Set :=
| OK | Canceled | Unknown | InvalidArgument | DeadlineExceeded | NotFound
| AlreadyExists | PermissionDenied | ResourceExhausted | FailedPrecondition
| Aborted | OutOfRange | Unimplemented | Internal | Unavailable | DataLoss
| Unauthenticated.

#[global] Instance Code_eq_dec : EqDecision Code.
Proof. solve_decision. Defined.
End codes.

(** An error value made by the Firestore client library. The accessors
    observe such a value in two ways only: [status.Code(err)], which is
    [codes.Unknown] for an error that carries no gRPC status, and
    [err.Error()]. *)
Record ClientError : Set := mkClientError {
  status_Code : codes.Code;
  Error_text : string
}.

(** The sentinels of [go-consensus-standards/ehandler] that [DAO] wraps. *)
Module ehandler.
Inductive Sentinel : Set := ErrNotFound | ErrConflict | ErrCorrupt | ErrBadRequest.
End ehandler.

(** The error values an accessor method can return: an error of the client
    passed on untouched, [e.Wrap(cause, sentinel)] of the rich variant, and
    the four package-level sentinels of the plain variant. *)
Inductive error : Set :=
| Client (b : ClientError)
| Wrap (cause : string) (target : ehandler.Sentinel)
| ErrDocumentNotFound
| ErrDocumentAlreadyExists
| ErrDocumentSkipped
| ErrQueryNotSupported.

(** The normalized taxonomy of the specification. *)
Inductive Kind : Set := KNotFound | KConflict | KCorrupt | KBadRequest | KSkipped | KPassthrough.

Definition kind_of (e : error) : Kind :=
  match e with
  | Client _ => KPassthrough
  | Wrap _ ehandler.ErrNotFound => KNotFound
  | Wrap _ ehandler.ErrConflict => KConflict
  | Wrap _ ehandler.ErrCorrupt => KCorrupt
  | Wrap _ ehandler.ErrBadRequest => KBadRequest
  | ErrDocumentNotFound => KNotFound
  | ErrDocumentAlreadyExists => KConflict
  | ErrDocumentSkipped => KSkipped
  | ErrQueryNotSupported => KBadRequest
  end.

(** The text of the plain variant's sentinels ([errors.New] in cruds.go). *)
Definition sentinel_text (e : error) : option string :=
  match e with
  | ErrDocumentNotFound => Some "document not found"
  | ErrDocumentAlreadyExists => Some "document already exists"
  | ErrDocumentSkipped => Some "document skipped because of error"
  | ErrQueryNotSupported =>
      Some "query not supported: combining (==) with (!=, <, <=, >, >=)"
  | _ => None
  end.

(** ** Values of the Firestore client *)

Module firestore.

(** A Go value of type [any] as it travels in updates and filters. *)
Inductive Value : Set :=
| VNil
| VBool (b : bool)
| VInt (n : Z)
| VString (s : string)
| VTime (t : Z).

(** [firestore.Update]. *)
Record Update : Set := mkUpdate { Path : string; Value_ : Value }.

(** One [Where] clause. *)
Record Filter : Set := mkFilter { f_path : string; f_op : string; f_value : Value }.

(** [firestore.Query]; a [CollectionRef] embeds one without filters. *)
Record Query : Set := mkQuery { q_collection : string; q_filters : list Filter }.

(** [client.Collection(path)] for a path the client accepts, one with an odd
    number of segments; for any other path the client returns a nil
    reference, a case the accessors are not modelled at. *)
Definition Collection (path : string) : Query := mkQuery path [].

Definition Where (q : Query) (path op : string) (v : Value) : Query :=
  mkQuery (q_collection q) (q_filters q ++ [mkFilter path op v]).

(** The zero value of [firestore.Query] ([var fsq firestore.Query]). *)
Definition zeroQuery : Query := mkQuery "" [].

(** [firestore.DocumentSnapshot]: [Exists] reports whether the snapshot
    holds a document. *)
Record DocumentSnapshot : Type := mkSnapshot {
  snap_id : string;
  Exists : bool;
  snap_fields : gmap string Value
}.

End firestore.

(** [t.Update] of go-consensus-standards/types: a Go map from field path to
    value; [None] is the nil map. *)
Definition t_Update : Type := option (gmap string firestore.Value).

(** The Document shape the accessors are instantiated at: its zero value
    ([var d Document], the never-assigned field [empty]) and what
    [snapshot.DataTo(&d)] makes of a snapshot. *)
Class Shape (Document : Type) : Type := {
  zero : Document;
  DataTo : firestore.DocumentSnapshot -> Document + ClientError
}.

(** ** Programs over the outside world *)

Section Programs.

Context (Document : Type).

(** What an accessor method asks of the outside. *)
Inductive op : Type :=
| TimeNow
    (* time.Now() *)
| DocCreate (path id : string) (document : Document)
    (* c.Collection(path).Doc(id).Create(ctx, document) *)
| DocGet (path id : string)
    (* c.Collection(path).Doc(id).Get(ctx) *)
| DocUpdate (path id : string) (fus : list firestore.Update)
    (* c.Collection(path).Doc(id).Update(ctx, fus) *)
| DocDelete (path id : string)
    (* c.Collection(path).Doc(id).Delete(ctx) *)
| GetAll (q : firestore.Query)
    (* q.Documents(ctx).GetAll() *)
| MapRange (m : gmap string firestore.Value)
    (* the entries of a non-nil map in the order [range] yields them *)
| LogError (logger : string) (snapshot : firestore.DocumentSnapshot) (err : error).
    (* log.With("snapshot", s).Error(err) *)

(** The answer to each operation. [Get] returns a snapshot pointer, which
    may be nil, next to its error; the methods that return a write result
    next to the error have it discarded by the accessors. *)
Definition resp (o : op) : Type :=
  match o with
  | TimeNow => Z
  | DocCreate _ _ _ => option ClientError
  | DocGet _ _ => option firestore.DocumentSnapshot * option ClientError
  | DocUpdate _ _ _ => option ClientError
  | DocDelete _ _ => option ClientError
  | GetAll _ => list firestore.DocumentSnapshot * option ClientError
  | MapRange _ => list (string * firestore.Value)
  | LogError _ _ _ => unit
  end.

Inductive prog (R : Type) : Type :=
| Ret (r : R)
| Panic
    (* nil pointer dereference *)
| Call (o : op) (k : resp o -> prog R).

Arguments Ret {R} r.
Arguments Panic {R}.
Arguments Call {R} o k.

Fixpoint bind {A B : Type} (p : prog A) (f : A -> prog B) : prog B :=
  match p with
  | Ret a => f a
  | Panic => Panic
  | Call o k => Call o (fun x => bind (k x) f)
  end.

Definition call (o : op) : prog (resp o) := Call o Ret.

(** An environment answers every operation and moves to its next state. *)
Definition env (W : Type) : Type := forall o : op, W -> resp o * W.

(** The outcome of a run: what the method returned ([None] when it
    panicked), the environment's last state, and the operations performed,
    in order. *)
Record outcome (R W : Type) : Type := mkOutcome {
  returned : option R;
  final : W;
  calls : list op
}.

Arguments mkOutcome {R W} returned final calls.

Fixpoint run {R W : Type} (E : env W) (p : prog R) (w : W) : outcome R W :=
  match p with
  | Ret r => mkOutcome (Some r) w []
  | Panic => mkOutcome None w []
  | Call o k =>
      let '(a, w') := E o w in
      let out := run E (k a) w' in
      mkOutcome (returned _ _ out) (final _ _ out) (o :: calls _ _ out)
  end.

(** Which operations reach the backend. *)
Definition is_backend_call (o : op) : bool :=
  match o with
  | DocCreate _ _ _ | DocGet _ _ | DocUpdate _ _ _ | DocDelete _ _ | GetAll _ => true
  | TimeNow | MapRange _ | LogError _ _ _ => false
  end.

End Programs.

Arguments TimeNow {Document}.
Arguments DocCreate {Document} path id document.
Arguments DocGet {Document} path id.
Arguments DocUpdate {Document} path id fus.
Arguments DocDelete {Document} path id.
Arguments GetAll {Document} q.
Arguments MapRange {Document} m.
Arguments LogError {Document} logger snapshot err.
Arguments resp {Document} o.
Arguments Ret {Document R} r.
Arguments Panic {Document R}.
Arguments Call {Document R} o k.
Arguments bind {Document A B} p f.
Arguments call {Document} o.
Arguments mkOutcome {Document R W} returned final calls.
Arguments returned {Document R W} o.
Arguments final {Document R W} o.
Arguments calls {Document R W} o.
Arguments run {Document R W} E p w.
Arguments is_backend_call {Document} o.

#[global] Instance prog_ret {Document} : MRet (prog Document) := fun _ r => Ret r.
#[global] Instance prog_bind {Document} : MBind (prog Document) := fun _ _ f p => bind p f.

(** Methods called through a snapshot pointer read a field of the snapshot,
    so a nil pointer makes them panic. *)
Definition ptr_Exists {Document} (snapshot : option firestore.DocumentSnapshot)
  : prog Document bool :=
  match snapshot with
  | None => Panic
  | Some s => Ret (firestore.Exists s)
  end.

Definition ptr_DataTo `{Shape Document} (snapshot : option firestore.DocumentSnapshot)
  : prog Document (Document + ClientError) :=
  match snapshot with
  | None => Panic
  | Some s => Ret (DataTo s)
  end.

(** [zap]'s [Named]: name segments are joined by periods. *)
Definition Named (base segment : string) : string :=
  if String.eqb base "" then segment else base +:+ "." +:+ segment.

(** ** The rich variant: package [dao] *)

Module dao.

(** [t.Query] of go-consensus-standards/types. *)
Record Query : Set := mkQuery {
  Key : string;
  Operator : string;
  Value : firestore.Value
}.

Record DAO : Set := mkDAO { path : string; log : string }.

Definition NewDAO (path : string) (log : string) : DAO :=
  mkDAO path (Named log "firestore.DAO").

Definition cause_conflict (id : string) : string :=
  "(document '" +:+ id +:+ "' already exists)".
Definition cause_not_found (id : string) : string :=
  "(ID: " +:+ id +:+ ")".
Definition cause_corrupt (text : string) : string :=
  "(firestore serialization failed: " +:+ text +:+ ")".
Definition cause_bad_request : string :=
  "(query not supported: combining '==' with '!= <, <=, >, >=')".

Section Methods.

Context `{Shape Document}.

Definition Create (c : DAO) (id : string) (document : Document)
  : prog Document (option error) :=
  now ← call TimeNow;
  err ← call (DocCreate (path c) id document);
  match err with
  | Some b =>
      if decide (status_Code b = codes.AlreadyExists)
      then mret (Some (Wrap (cause_conflict id) ehandler.ErrConflict))
      else mret (Some (Client b))
  | None =>
      let fus := [ firestore.mkUpdate "created" (firestore.VTime now);
                   firestore.mkUpdate "updated" (firestore.VTime now) ] in
      err ← call (DocUpdate (path c) id fus);
      match err with
      | Some b => mret (Some (Client b))
      | None => mret None
      end
  end.

Definition Read (c : DAO) (id : string) : prog Document (Document * option error) :=
  '(snapshot, err) ← call (DocGet (path c) id);
  match err with
  | Some b =>
      ex ← ptr_Exists snapshot;
      if negb ex
      then mret (zero, Some (Wrap (cause_not_found id) ehandler.ErrNotFound))
      else mret (zero, Some (Client b))
  | None =>
      r ← ptr_DataTo snapshot;
      match r with
      | inr b =>
          mret (zero, Some (Wrap (cause_corrupt (Error_text b)) ehandler.ErrCorrupt))
      | inl d => mret (d, None)
      end
  end.

Definition fromUpdate (input : t_Update) : prog Document (list firestore.Update) :=
  kvs ← match input with
        | None => mret []
        | Some m => call (MapRange m)
        end;
  mret (foldl (fun fus kv => fus ++ [firestore.mkUpdate kv.1 kv.2]) [] kvs).

Definition Update (c : DAO) (id : string) (update : t_Update)
  : prog Document (option error) :=
  fus ← fromUpdate update;
  now ← call TimeNow;
  let fus := fus ++ [firestore.mkUpdate "updated" (firestore.VTime now)] in
  err ← call (DocUpdate (path c) id fus);
  match err with
  | Some b => mret (Some (Client b))
  | None => mret None
  end.

Definition Delete (c : DAO) (id : string) : prog Document (option error) :=
  err ← call (DocDelete (path c) id);
  match err with
  | Some b => mret (Some (Client b))
  | None => mret None
  end.

(** [for i, q := range queries { ... }] *)
Fixpoint chain (collection : firestore.Query) (i : nat) (queries : list Query)
  (fsq : firestore.Query) : firestore.Query :=
  match queries with
  | [] => fsq
  | q :: rest =>
      let op := fro (Operator q) in
      chain collection (S i) rest
        (if Nat.eqb i 0
         then firestore.Where collection (Key q) op (Value q)
         else firestore.Where fsq (Key q) op (Value q))
  end.

(** [for _, s := range snapshots { ... }], over the snapshots of [GetAll],
    none of which is nil. *)
Fixpoint collect (log : string) (snapshots : list firestore.DocumentSnapshot)
  (ds : list Document) : prog Document (list Document) :=
  match snapshots with
  | [] => mret ds
  | s :: rest =>
      match DataTo s with
      | inr b =>
          let wrapped := Wrap (cause_corrupt (Error_text b)) ehandler.ErrCorrupt in
          _ ← call (LogError log s wrapped);
          collect log rest ds
      | inl d => collect log rest (ds ++ [d])
      end
  end.

Definition Search (c : DAO) (queries : list Query)
  : prog Document (list Document * option error) :=
  let log := Named (log c) "Search" in
  let collection := firestore.Collection (path c) in
  fetched ←
    (if Nat.eqb (length queries) 0 then
       '(snapshots, err) ← call (GetAll collection);
       match err with
       | Some b => mret (inr (Client b))
       | None => mret (inl snapshots)
       end
     else
       let fsq := chain collection 0 queries firestore.zeroQuery in
       '(snapshots, err) ← call (GetAll fsq);
       match err with
       | Some b =>
           if decide (status_Code b = codes.FailedPrecondition)
           then mret (inr (Wrap cause_bad_request ehandler.ErrBadRequest))
           else mret (inr (Client b))
       | None => mret (inl snapshots)
       end);
  match fetched with
  | inr e => mret ([], Some e)
  | inl snapshots =>
      ds ← collect log snapshots [];
      mret (ds, None)
  end.

End Methods.

End dao.

(** ** The plain variant: package [cruds] *)

Module cruds.

Record Query : Set := mkQuery {
  Path : string;
  Operator : string;
  Value : firestore.Value
}.

Record CRUDS : Set := mkCRUDS { path : string }.

Definition NewCRUDS (path : string) : CRUDS := mkCRUDS path.

Section Methods.

Context `{Shape Document}.

Definition Create (c : CRUDS) (id : string) (document : Document)
  : prog Document (option error) :=
  err ← call (DocCreate (path c) id document);
  match err with
  | Some b =>
      if decide (status_Code b = codes.AlreadyExists)
      then mret (Some ErrDocumentAlreadyExists)
      else mret (Some (Client b))
  | None => mret None
  end.

Definition Read (c : CRUDS) (id : string) : prog Document (Document * option error) :=
  '(snapshot, err) ← call (DocGet (path c) id);
  match err with
  | Some b =>
      ex ← ptr_Exists snapshot;
      if negb ex
      then mret (zero, Some ErrDocumentNotFound)
      else mret (zero, Some (Client b))
  | None =>
      r ← ptr_DataTo snapshot;
      match r with
      | inr b => mret (zero, Some (Client b))
      | inl d => mret (d, None)
      end
  end.

Definition Update (c : CRUDS) (id : string) (updates : list firestore.Update)
  : prog Document (option error) :=
  err ← call (DocUpdate (path c) id updates);
  match err with
  | Some b => mret (Some (Client b))
  | None => mret None
  end.

Definition Delete (c : CRUDS) (id : string) : prog Document (option error) :=
  err ← call (DocDelete (path c) id);
  match err with
  | Some b => mret (Some (Client b))
  | None => mret None
  end.

(** [for i, q := range queries { ... }] *)
Fixpoint chain (collection : firestore.Query) (i : nat) (queries : list Query)
  (fsq : firestore.Query) : firestore.Query :=
  match queries with
  | [] => fsq
  | q :: rest =>
      chain collection (S i) rest
        (if Nat.eqb i 0
         then firestore.Where collection (Path q) (Operator q) (Value q)
         else firestore.Where fsq (Path q) (Operator q) (Value q))
  end.

(** [for _, s := range snapshots { ... }], over the snapshots of [GetAll],
    none of which is nil: the loop assigns the variable [err] of the
    enclosing function at every snapshot. *)
Fixpoint collect (snapshots : list firestore.DocumentSnapshot)
  (ds : list Document) (err : option error) : list Document * option error :=
  match snapshots with
  | [] => (ds, err)
  | s :: rest =>
      match DataTo s with
      | inr _ => collect rest ds (Some ErrDocumentSkipped)
      | inl d => collect rest (ds ++ [d]) None
      end
  end.

Definition Search (c : CRUDS) (queries : list Query)
  : prog Document (list Document * option error) :=
  let collection := firestore.Collection (path c) in
  fetched ←
    (if Nat.eqb (length queries) 0 then
       '(snapshots, err) ← call (GetAll collection);
       match err with
       | Some b => mret (inr (Client b))
       | None => mret (inl snapshots)
       end
     else
       let fsq := chain collection 0 queries firestore.zeroQuery in
       '(snapshots, err) ← call (GetAll fsq);
       match err with
       | Some b =>
           if decide (status_Code b = codes.FailedPrecondition)
           then mret (inr ErrQueryNotSupported)
           else mret (inr (Client b))
       | None => mret (inl snapshots)
       end);
  match fetched with
  | inr e => mret ([], Some e)
  | inl snapshots => mret (collect snapshots [] None)
  end.

End Methods.

End cruds.

(** ** Vocabulary of the properties *)

Definition dao_filter (q : dao.Query) : firestore.Filter :=
  firestore.mkFilter (dao.Key q) (fro (dao.Operator q)) (dao.Value q).

Definition cruds_filter (q : cruds.Query) : firestore.Filter :=
  firestore.mkFilter (cruds.Path q) (cruds.Operator q) (cruds.Value q).

(** The query either variant of Search executes. *)
Definition dao_query (c : dao.DAO) (queries : list dao.Query) : firestore.Query :=
  firestore.mkQuery (dao.path c) (map dao_filter queries).

Definition cruds_query (c : cruds.CRUDS) (queries : list cruds.Query) : firestore.Query :=
  firestore.mkQuery (cruds.path c) (map cruds_filter queries).

Section Snapshots.

Context `{Shape Document}.

Definition corrupt (s : firestore.DocumentSnapshot) : bool :=
  match DataTo s with inr _ => true | inl _ => false end.

(** The documents of the snapshots that decode, in the backend's order. *)
Fixpoint valid_docs (snapshots : list firestore.DocumentSnapshot) : list Document :=
  match snapshots with
  | [] => []
  | s :: rest =>
      match DataTo s with
      | inl d => d :: valid_docs rest
      | inr _ => valid_docs rest
      end
  end.

(** The notices the rich variant logs: one per snapshot that does not
    decode, carrying the snapshot and the wrapped Corrupt error. *)
Fixpoint notices (log : string) (snapshots : list firestore.DocumentSnapshot)
  : list (op Document) :=
  match snapshots with
  | [] => []
  | s :: rest =>
      match DataTo s with
      | inl _ => notices log rest
      | inr b =>
          LogError log s (Wrap (dao.cause_corrupt (Error_text b)) ehandler.ErrCorrupt)
          :: notices log rest
      end
  end.

End Snapshots.

(** The documents handed to the backend's create primitive, with the
    collection path and key they are created at. *)
Fixpoint created {Document} (ops : list (op Document)) : list (string * string * Document) :=
  match ops with
  | [] => []
  | DocCreate path id document :: rest => (path, id, document) :: created rest
  | _ :: rest => created rest
  end.

(** The two instructions of the follow-up of the rich variant's Create. *)
Definition timestamps (now : Z) : list firestore.Update :=
  [ firestore.mkUpdate "created" (firestore.VTime now);
    firestore.mkUpdate "updated" (firestore.VTime now) ].

(** How the client reports that no document exists at a key: [Get] returns
    a NotFound error next to a snapshot, not nil, whose [Exists] is false. *)
Definition reports_absent (r : option firestore.DocumentSnapshot * option ClientError) : Prop :=
  exists s b, r = (Some s, Some b) /\ firestore.Exists s = false /\
              status_Code b = codes.NotFound.

(** The instruction [fromUpdate] makes of one entry of the mapping. *)
Definition instruction (kv : string * firestore.Value) : firestore.Update :=
  firestore.mkUpdate kv.1 kv.2.

Definition entry (u : firestore.Update) : string * firestore.Value :=
  (firestore.Path u, firestore.Value_ u).

(** The instruction the rich variant's Update appends. *)
Definition touch (now : Z) : firestore.Update :=
  firestore.mkUpdate "updated" (firestore.VTime now).

(** What [range] yields for the mapping, nil or not. *)
Definition ranged {Document W} (E : env Document W) (update : t_Update) (w : W)
  : list (string * firestore.Value) * W :=
  match update with
  | None => ([], w)
  | Some m => E (MapRange m) w
  end.

Definition range_calls {Document} (update : t_Update) : list (op Document) :=
  match update with
  | None => []
  | Some m => [MapRange m]
  end.

Definition backend_calls {Document} (ops : list (op Document)) : list (op Document) :=
  List.filter is_backend_call ops.

(** ** A document shape and a scripted client for concrete runs *)

Module sample.

Record Person : Set := mkPerson { name : string; age : Z }.

Definition mismatch (field : string) : ClientError :=
  mkClientError codes.Unknown ("firestore: cannot set field " +:+ field).

(** Decoding as [DataTo] does for a struct: a snapshot without a document
    is an error, an absent field leaves the zero value, a field of the
    wrong type is an error. *)
Definition text_field (v : option firestore.Value) : option string :=
  match v with
  | None => Some ""
  | Some (firestore.VString s) => Some s
  | Some _ => None
  end.

Definition int_field (v : option firestore.Value) : option Z :=
  match v with
  | None => Some 0%Z
  | Some (firestore.VInt n) => Some n
  | Some _ => None
  end.

Definition decode (s : firestore.DocumentSnapshot) : Person + ClientError :=
  if negb (firestore.Exists s)
  then inr (mkClientError codes.NotFound "document does not exist")
  else
    match text_field (firestore.snap_fields s !! "name"),
          int_field (firestore.snap_fields s !! "age") with
    | Some n, Some a => inl (mkPerson n a)
    | None, _ => inr (mismatch "name")
    | Some _, None => inr (mismatch "age")
    end.

#[global] Instance Person_Shape : Shape Person :=
  {| zero := mkPerson "" 0; DataTo := decode |}.

Definition ada : firestore.DocumentSnapshot :=
  firestore.mkSnapshot "ada" true
    (<["name" := firestore.VString "Ada"]> (<["age" := firestore.VInt 36]> ∅)).

Definition bob : firestore.DocumentSnapshot :=
  firestore.mkSnapshot "bob" true
    (<["name" := firestore.VString "Bob"]> (<["age" := firestore.VInt 41]> ∅)).

(** A stored document whose [age] is a string: it does not decode. *)
Definition bad : firestore.DocumentSnapshot :=
  firestore.mkSnapshot "eve" true
    (<["name" := firestore.VString "Eve"]> (<["age" := firestore.VString "old"]> ∅)).

(** What [Get] returns for a key without a document. *)
Definition absent (id : string) : firestore.DocumentSnapshot :=
  firestore.mkSnapshot id false ∅.

(** A client with fixed answers; [range] yields the entries of a map in
    the order of [map_to_list]. *)
Record Stub : Type := mkStub {
  stub_now : Z;
  stub_create : option ClientError;
  stub_get : option firestore.DocumentSnapshot * option ClientError;
  stub_update : option ClientError;
  stub_delete : option ClientError;
  stub_getall : list firestore.DocumentSnapshot * option ClientError
}.

Definition stub_env (s : Stub) : env Person unit :=
  fun o w =>
    match o as o' return resp o' * unit with
    | TimeNow => (stub_now s, w)
    | DocCreate _ _ _ => (stub_create s, w)
    | DocGet _ _ => (stub_get s, w)
    | DocUpdate _ _ _ => (stub_update s, w)
    | DocDelete _ _ => (stub_delete s, w)
    | GetAll _ => (stub_getall s, w)
    | MapRange m => (map_to_list m, w)
    | LogError _ _ _ => (tt, w)
    end.

(** A client on which every call succeeds. *)
Definition healthy : Stub :=
  mkStub 1700000000 None (Some ada, None) None None ([ada; bob], None).

Definition with_create (e : option ClientError) (s : Stub) : Stub :=
  mkStub (stub_now s) e (stub_get s) (stub_update s) (stub_delete s) (stub_getall s).

Definition with_get (r : option firestore.DocumentSnapshot * option ClientError)
  (s : Stub) : Stub :=
  mkStub (stub_now s) (stub_create s) r (stub_update s) (stub_delete s) (stub_getall s).

Definition with_update (e : option ClientError) (s : Stub) : Stub :=
  mkStub (stub_now s) (stub_create s) (stub_get s) e (stub_delete s) (stub_getall s).

Definition with_getall (r : list firestore.DocumentSnapshot * option ClientError)
  (s : Stub) : Stub :=
  mkStub (stub_now s) (stub_create s) (stub_get s) (stub_update s) (stub_delete s) r.

Definition status (code : codes.Code) : ClientError :=
  mkClientError code "rpc error".

Definition people_dao : dao.DAO := dao.NewDAO "people" "".
Definition people_cruds : cruds.CRUDS := cruds.NewCRUDS "people".

(** name == "Ada" AND age > 30, for either variant. *)
Definition mixed_dao : list dao.Query :=
  [ dao.mkQuery "name" "eq" (firestore.VString "Ada");
    dao.mkQuery "age" "gt" (firestore.VInt 30) ].

Definition mixed_cruds : list cruds.Query :=
  [ cruds.mkQuery "name" "==" (firestore.VString "Ada");
    cruds.mkQuery "age" ">" (firestore.VInt 30) ].

End sample.

(** ** Vocabulary of the further properties *)

Definition is_clock_read {Document} (o : op Document) : bool :=
  match o with
  | TimeNow => true
  | _ => false
  end.

Definition is_log_call {Document} (o : op Document) : bool :=
  match o with
  | LogError _ _ _ => true
  | _ => false
  end.

Definition clock_reads {Document} (ops : list (op Document)) : list (op Document) :=
  List.filter is_clock_read ops.

Definition log_calls {Document} (ops : list (op Document)) : list (op Document) :=
  List.filter is_log_call ops.

(** The operation stays inside the collection [path]; when it addresses a
    document, the document is the one under the key [id]. *)
Definition within {Document} (path : string) (id : option string) (o : op Document) : Prop :=
  match o with
  | DocCreate p i _ => p = path /\ id = Some i
  | DocGet p i => p = path /\ id = Some i
  | DocUpdate p i _ => p = path /\ id = Some i
  | DocDelete p i => p = path /\ id = Some i
  | GetAll q => firestore.q_collection q = path
  | TimeNow | MapRange _ | LogError _ _ _ => True
  end.

(** The error, if there is one, is of one of the kinds [allowed]. *)
Definition of_kinds (allowed : list Kind) (err : option error) : Prop :=
  match err with
  | Some e => kind_of e ∈ allowed
  | None => True
  end.

(** The strings [fro] can return. *)
Definition fro_range : list string :=
  ["=="; "!="; "<"; ">"; "<="; ">="; "UNKNOWN"].

(** A stub whose Delete fails. *)
Definition stub_with_delete (e : option ClientError) (s : sample.Stub) : sample.Stub :=
  sample.mkStub (sample.stub_now s) (sample.stub_create s) (sample.stub_get s)
    (sample.stub_update s) e (sample.stub_getall s).

(** ** What the accepted writes leave under a key *)

Section Store.

Context {Document : Type}.

(** A write that the backend accepted. *)
Inductive write : Type :=
| Created (path id : string) (document : Document)
| Updated (path id : string) (fus : list firestore.Update)
| Deleted (path id : string).

(** The write an operation amounts to when it is answered without an
    error; an operation answered with an error writes nothing. *)
Definition accepted (o : op Document) : resp o -> list write :=
  match o as o' return resp o' -> list write with
  | DocCreate p i d => fun r => if r is None then [Created p i d] else []
  | DocUpdate p i fus => fun r => if r is None then [Updated p i fus] else []
  | DocDelete p i => fun r => if r is None then [Deleted p i] else []
  | TimeNow => fun _ => []
  | DocGet _ _ => fun _ => []
  | GetAll _ => fun _ => []
  | MapRange _ => fun _ => []
  | LogError _ _ _ => fun _ => []
  end.

(** The environment [E], keeping the list of the writes it accepted next
    to its own state; its answers are those of [E]. *)
Definition recording {W : Type} (E : env Document W) : env Document (W * list write) :=
  fun o s =>
    let '(a, w') := E o s.1 in
    (a, (w', s.2 ++ accepted o a)).

(** The writes the backend accepted during a run that starts in [w]. *)
Definition writes_of {R W : Type} (E : env Document W) (p : prog Document R) (w : W)
  : list write :=
  (final (run (recording E) p (w, []))).2.

(** The document stored under a key: the value it was created with, and
    the instructions of the updates applied to it since, in order. *)
Record Stored : Type := mkStored {
  supplied : Document;
  fields_set : list firestore.Update
}.

(** An accepted create stores the document handed over, an accepted update
    sets the fields of its instructions on the stored document, an accepted
    delete removes it; a write to another key leaves this one alone. *)
Definition apply_write (path id : string) (st : option Stored) (x : write)
  : option Stored :=
  match x with
  | Created p i d =>
      if decide (p = path /\ i = id) then Some (mkStored d []) else st
  | Updated p i fus =>
      if decide (p = path /\ i = id)
      then match st with
           | Some s => Some (mkStored (supplied s) (fields_set s ++ fus))
           | None => None
           end
      else st
  | Deleted p i =>
      if decide (p = path /\ i = id) then None else st
  end.

(** What a list of accepted writes leaves under [path]/[id], starting from
    a key without a document. *)
Definition stored (path id : string) (ws : list write) : option Stored :=
  foldl (apply_write path id) None ws.

End Store.

Arguments write Document : clear implicits.
Arguments Stored Document : clear implicits.

(** ** Running programs *)

Section RunFacts.

Context {Document : Type} {W : Type}.
Implicit Types (E : env Document W) (w : W).

Lemma run_ret {R} E (r : R) w :
  run E (mret r) w = mkOutcome (Some r) w [].
Proof. reflexivity. Qed.

Lemma run_call {R} E (o : op Document) (k : resp o -> prog Document R) w :
  run E (Call o k) w =
  let out := run E (k (E o w).1) (E o w).2 in
  mkOutcome (returned out) (final out) (o :: calls out).
Proof. simpl. destruct (E o w) as [a w']. reflexivity. Qed.

(** Sequencing: the second program starts where the first one stopped, a
    panic of the first one stops the run, and the operations of both are
    performed in order. *)
Lemma run_bind {A B} E (p : prog Document A) (f : A -> prog Document B) w :
  run E (p ≫= f) w =
  let out := run E p w in
  match returned out with
  | Some a =>
      let out' := run E (f a) (final out) in
      mkOutcome (returned out') (final out') (calls out ++ calls out')
  | None => mkOutcome None (final out) (calls out)
  end.
Proof.
  revert w. induction p as [r | | o k IH]; intros w.
  - simpl. destruct (run E (f r) w); reflexivity.
  - reflexivity.
  - change (Call o k ≫= f) with (Call o (fun x => k x ≫= f)).
    rewrite !run_call. cbv zeta. rewrite IH. cbv zeta.
    destruct (returned (run E (k (E o w).1) (E o w).2)); reflexivity.
Qed.

End RunFacts.

(** ** The predicate translator *)

Example fro_eq_lower : fro "eq" = "==". Proof. reflexivity. Qed.
Example fro_ge_mixed : fro "gE" = ">=". Proof. reflexivity. Qed.
Example fro_native_token : fro "==" = "UNKNOWN". Proof. reflexivity. Qed.
Example fro_empty : fro "" = "UNKNOWN". Proof. reflexivity. Qed.

Example decode_ada : sample.decode sample.ada = inl (sample.mkPerson "Ada" 36).
Proof. vm_compute. reflexivity. Qed.
Example decode_bad : sample.decode sample.bad = inr (sample.mismatch "age").
Proof. vm_compute. reflexivity. Qed.

Lemma fro_of_token input tok native :
  (tok, native) ∈ operator_table -> Strings.ToUpper input = tok -> fro input = native.
Proof.
  intros Hin Hup. unfold fro. rewrite Hup. clear Hup. unfold operator_table in Hin.
  repeat (apply elem_of_cons in Hin as [Heq | Hin];
          [injection Heq as -> ->; reflexivity |]).
  by apply elem_of_nil in Hin.
Qed.

Lemma fro_of_other input :
  (forall tok native, (tok, native) ∈ operator_table -> Strings.ToUpper input <> tok) ->
  fro input = "UNKNOWN".
Proof.
  intros Hout. unfold fro.
  repeat match goal with
         | |- context [String.eqb ?a ?b] =>
             destruct (String.eqb_spec a b) as [Heq | _];
             [ exfalso; refine (Hout _ _ _ Heq); unfold operator_table;
               repeat first [apply list_elem_of_here | apply list_elem_of_further]
             | ]
         end.
  reflexivity.
Qed.

(** Every spelling of a token is translated like the token itself. *)
Example fro_letter_cases :
  map fro [ "eq"; "eQ"; "Eq"; "EQ"; "ne"; "nE"; "Ne"; "NE"; "lt"; "lT"; "Lt"; "LT";
            "gt"; "gT"; "Gt"; "GT"; "le"; "lE"; "Le"; "LE"; "ge"; "gE"; "Ge"; "GE" ] =
          [ "=="; "=="; "=="; "=="; "!="; "!="; "!="; "!="; "<"; "<"; "<"; "<";
            ">"; ">"; ">"; ">"; "<="; "<="; "<="; "<="; ">="; ">="; ">="; ">=" ].
Proof. reflexivity. Qed.

(** The upper-casing touches nothing but the letter case: it is idempotent
    and leaves the six tokens as they are. *)
Example ToUpper_tokens : map Strings.ToUpper operator_table.*1 = operator_table.*1.
Proof. reflexivity. Qed.

Lemma upper_byte_idemp a : Strings.upper_byte (Strings.upper_byte a) = Strings.upper_byte a.
Proof. destruct a as [[] [] [] [] [] [] [] []]; reflexivity. Qed.

Lemma ToUpper_idemp s : Strings.ToUpper (Strings.ToUpper s) = Strings.ToUpper s.
Proof. induction s as [| a s IH]; simpl; [reflexivity |]. by rewrite upper_byte_idemp, IH. Qed.

Lemma fro_ignores_case input : fro (Strings.ToUpper input) = fro input.
Proof. unfold fro. by rewrite ToUpper_idemp. Qed.

(** ** The query handed to the backend *)

Lemma dao_chain_succ collection i queries fsq :
  dao.chain collection (S i) queries fsq =
  firestore.mkQuery (firestore.q_collection fsq)
    (firestore.q_filters fsq ++ map dao_filter queries).
Proof.
  revert i fsq. induction queries as [| q rest IH]; intros i fsq; simpl.
  - rewrite app_nil_r. by destruct fsq.
  - rewrite IH. simpl. by rewrite <- app_assoc.
Qed.

Lemma dao_chain path queries :
  queries <> [] ->
  dao.chain (firestore.Collection path) 0 queries firestore.zeroQuery =
  firestore.mkQuery path (map dao_filter queries).
Proof. destruct queries as [| q rest]; [done |]. intros _. simpl. by rewrite dao_chain_succ. Qed.

Lemma cruds_chain_succ collection i queries fsq :
  cruds.chain collection (S i) queries fsq =
  firestore.mkQuery (firestore.q_collection fsq)
    (firestore.q_filters fsq ++ map cruds_filter queries).
Proof.
  revert i fsq. induction queries as [| q rest IH]; intros i fsq; simpl.
  - rewrite app_nil_r. by destruct fsq.
  - rewrite IH. simpl. by rewrite <- app_assoc.
Qed.

Lemma cruds_chain path queries :
  queries <> [] ->
  cruds.chain (firestore.Collection path) 0 queries firestore.zeroQuery =
  firestore.mkQuery path (map cruds_filter queries).
Proof. destruct queries as [| q rest]; [done |]. intros _. simpl. by rewrite cruds_chain_succ. Qed.


(** ** Decoding the snapshots of a search *)

Section Decoding.

Context `{Shape Document}.

Lemma valid_docs_app l1 l2 : valid_docs (l1 ++ l2) = valid_docs l1 ++ valid_docs l2.
Proof.
  induction l1 as [| s l1 IH]; simpl; [reflexivity |].
  destruct (DataTo s); simpl; by rewrite IH.
Qed.

Lemma notices_app log l1 l2 : notices log (l1 ++ l2) = notices log l1 ++ notices log l2.
Proof.
  induction l1 as [| s l1 IH]; simpl; [reflexivity |].
  destruct (DataTo s); simpl; by rewrite IH.
Qed.

Lemma valid_docs_all_valid l :
  Forall (fun s => corrupt s = false) l ->
  length (valid_docs l) = length l /\ forall log, notices log l = [].
Proof.
  induction 1 as [| s l Hs _ IH]; simpl; [done |].
  unfold corrupt in Hs. destruct (DataTo s); [| done].
  destruct IH as (IH1 & IH2). simpl. by rewrite IH1.
Qed.

Lemma notices_length log l :
  length (notices log l) = length (filter (fun s => corrupt s = true) l).
Proof.
  induction l as [| s l IH]; simpl; [reflexivity |].
  rewrite filter_cons.
  destruct (decide (corrupt s = true)) as [Hc | Hc]; unfold corrupt in Hc;
    destruct (DataTo s); try done; simpl; by rewrite IH.
Qed.

(** The loop of the rich variant. *)
Lemma dao_collect_run {W} (E : env Document W) log snapshots ds w :
  exists w',
    run E (dao.collect log snapshots ds) w =
    mkOutcome (Some (ds ++ valid_docs snapshots)) w' (notices log snapshots).
Proof.
  revert ds w. induction snapshots as [| s rest IH]; intros ds w; simpl.
  - exists w. by rewrite app_nil_r.
  - destruct (DataTo s) as [d | b].
    + destruct (IH (ds ++ [d]) w) as [w' ->]. exists w'. by rewrite <- app_assoc.
    + simpl. destruct (E _ w) as [u w1].
      destruct (IH ds w1) as [w' ->]. exists w'. reflexivity.
Qed.

(** The loop of the plain variant: the documents, and the value left in
    [err] when the loop ends. *)
Lemma cruds_collect_docs snapshots ds err :
  (cruds.collect snapshots ds err).1 = ds ++ valid_docs snapshots.
Proof.
  revert ds err. induction snapshots as [| s rest IH]; intros ds err; simpl.
  - by rewrite app_nil_r.
  - destruct (DataTo s) as [d | b]; rewrite IH; [by rewrite <- app_assoc | done].
Qed.

Lemma cruds_collect_err snapshots ds err :
  (cruds.collect snapshots ds err).2 =
  match last snapshots with
  | None => err
  | Some s => if corrupt s then Some ErrDocumentSkipped else None
  end.
Proof.
  revert ds err. induction snapshots as [| s rest IH]; intros ds err; [reflexivity |].
  simpl cruds.collect. rewrite last_cons.
  destruct (DataTo s) as [d | b] eqn:Hs; rewrite IH;
    (destruct (last rest); [reflexivity |]); unfold corrupt; by rewrite Hs.
Qed.

End Decoding.

(** ** Search *)

Section SearchRuns.

Context `{Shape Document} {W : Type}.
Implicit Types (E : env Document W) (w : W).

Lemma dao_search_fetched E c queries w snapshots w1 :
  E (GetAll (dao_query c queries)) w = ((snapshots, None), w1) ->
  exists w',
    run E (dao.Search c queries) w =
    mkOutcome (Some (valid_docs snapshots, None)) w'
      (GetAll (dao_query c queries)
       :: notices (Named (dao.log c) "Search") snapshots).
Proof.
  intros HE. unfold dao.Search.
  assert (Hq : (if Nat.eqb (length queries) 0 then firestore.Collection (dao.path c)
                else dao.chain (firestore.Collection (dao.path c)) 0 queries
                       firestore.zeroQuery) = dao_query c queries).
  { destruct queries; [reflexivity |]. by rewrite dao_chain. }
  destruct (dao_collect_run E (Named (dao.log c) "Search") snapshots [] w1) as [w' Hrun].
  exists w'.
  destruct queries as [| q rest]; cbn [length Nat.eqb] in *; cbv zeta;
    [change (firestore.Collection (dao.path c)) with (dao_query c []) | rewrite Hq];
    rewrite !run_bind; cbv zeta; unfold call; rewrite run_call;
    cbv zeta; rewrite HE; simpl; rewrite run_bind, Hrun; simpl;
    rewrite ?app_nil_r; reflexivity.
Qed.

Lemma dao_search_failed E c queries w snapshots b w1 :
  E (GetAll (dao_query c queries)) w = ((snapshots, Some b), w1) ->
  run E (dao.Search c queries) w =
  mkOutcome
    (Some ([], Some (if Nat.eqb (length queries) 0 then Client b
                     else if decide (status_Code b = codes.FailedPrecondition)
                          then Wrap dao.cause_bad_request ehandler.ErrBadRequest
                          else Client b)))
    w1 [GetAll (dao_query c queries)].
Proof.
  intros HE. unfold dao.Search.
  destruct queries as [| q rest]; cbn [length Nat.eqb] in *; cbv zeta;
    [change (firestore.Collection (dao.path c)) with (dao_query c [])
    | rewrite dao_chain by done; fold (dao_query c (q :: rest))];
    rewrite !run_bind; cbv zeta; unfold call; rewrite run_call;
    cbv zeta; rewrite HE; simpl; [reflexivity |].
  by destruct (decide (status_Code b = codes.FailedPrecondition)).
Qed.

Lemma cruds_search_fetched E c queries w snapshots w1 :
  E (GetAll (cruds_query c queries)) w = ((snapshots, None), w1) ->
  run E (cruds.Search c queries) w =
  mkOutcome (Some (cruds.collect snapshots [] None)) w1
    [GetAll (cruds_query c queries)].
Proof.
  intros HE. unfold cruds.Search.
  destruct queries as [| q rest]; cbn [length Nat.eqb] in *; cbv zeta;
    [change (firestore.Collection (cruds.path c)) with (cruds_query c [])
    | rewrite cruds_chain by done; fold (cruds_query c (q :: rest))];
    rewrite !run_bind; cbv zeta; unfold call; rewrite run_call;
    cbv zeta; rewrite HE; reflexivity.
Qed.

Lemma cruds_search_failed E c queries w snapshots b w1 :
  E (GetAll (cruds_query c queries)) w = ((snapshots, Some b), w1) ->
  run E (cruds.Search c queries) w =
  mkOutcome
    (Some ([], Some (if Nat.eqb (length queries) 0 then Client b
                     else if decide (status_Code b = codes.FailedPrecondition)
                          then ErrQueryNotSupported
                          else Client b)))
    w1 [GetAll (cruds_query c queries)].
Proof.
  intros HE. unfold cruds.Search.
  destruct queries as [| q rest]; cbn [length Nat.eqb] in *; cbv zeta;
    [change (firestore.Collection (cruds.path c)) with (cruds_query c [])
    | rewrite cruds_chain by done; fold (cruds_query c (q :: rest))];
    rewrite !run_bind; cbv zeta; unfold call; rewrite run_call;
    cbv zeta; rewrite HE; simpl; [reflexivity |].
  by destruct (decide (status_Code b = codes.FailedPrecondition)).
Qed.

(** Both variants execute exactly the query [dao_query], respectively
    [cruds_query], and it is the first thing they do. *)
Lemma dao_search_first_call E c queries w :
  head (calls (run E (dao.Search c queries) w)) = Some (GetAll (dao_query c queries)).
Proof.
  destruct (E (GetAll (dao_query c queries)) w) as [[snapshots [b |]] w1] eqn:HE.
  - by rewrite (dao_search_failed _ _ _ _ _ _ _ HE).
  - destruct (dao_search_fetched _ _ _ _ _ _ HE) as [w' ->]. reflexivity.
Qed.

Lemma cruds_search_first_call E c queries w :
  head (calls (run E (cruds.Search c queries) w)) = Some (GetAll (cruds_query c queries)).
Proof.
  destruct (E (GetAll (cruds_query c queries)) w) as [[snapshots [b |]] w1] eqn:HE.
  - by rewrite (cruds_search_failed _ _ _ _ _ _ _ HE).
  - by rewrite (cruds_search_fetched _ _ _ _ _ _ HE).
Qed.

End SearchRuns.

(** ** The operator translation and where it is applied *)

(** C2 (as amended): an input whose upper-cased form is one of EQ, NE, LT,
    GT, LE, GE is translated to the native operator of that token, every
    other input to the sentinel "UNKNOWN"; the rich variant's Search hands
    every predicate's operator to the query builder translated by [fro],
    while the plain variant's Search hands it over verbatim. *)
Theorem operator_translation `{Shape Document} {W : Type} (E : env Document W) (w : W)
    (cd : dao.DAO) (cc : cruds.CRUDS) (qd : list dao.Query) (qc : list cruds.Query)
    (input : string) :
  (forall tok native,
     (tok, native) ∈ operator_table -> Strings.ToUpper input = tok -> fro input = native) /\
  ((forall tok native,
      (tok, native) ∈ operator_table -> Strings.ToUpper input <> tok) ->
   fro input = "UNKNOWN") /\
  head (calls (run E (dao.Search cd qd) w)) =
    Some (GetAll (firestore.mkQuery (dao.path cd)
            (map (fun q => firestore.mkFilter
                             (dao.Key q) (fro (dao.Operator q)) (dao.Value q)) qd))) /\
  head (calls (run E (cruds.Search cc qc) w)) =
    Some (GetAll (firestore.mkQuery (cruds.path cc)
            (map (fun q => firestore.mkFilter
                             (cruds.Path q) (cruds.Operator q) (cruds.Value q)) qc))).
Proof.
  split; [| split; [| split]].
  - intros tok native. apply fro_of_token.
  - apply fro_of_other.
  - apply dao_search_first_call.
  - apply cruds_search_first_call.
Qed.

Lemma operator_translation_witness :
  fro "le" = "<=" /\ fro "like" = "UNKNOWN".
Proof.
  split.
  - refine (proj1 (operator_translation (sample.stub_env sample.healthy) tt
                     (dao.NewDAO "people" "") (cruds.NewCRUDS "people") [] [] "le")
                  "LE" "<=" _ _).
    + unfold operator_table.
      repeat first [apply list_elem_of_here | apply list_elem_of_further].
    + reflexivity.
  - refine (proj1 (proj2 (operator_translation (sample.stub_env sample.healthy) tt
                     (dao.NewDAO "people" "") (cruds.NewCRUDS "people") [] [] "like")) _).
    intros tok native Hin. unfold operator_table in Hin.
    repeat (apply elem_of_cons in Hin as [Heq | Hin];
            [injection Heq as -> ->; discriminate |]).
    by apply elem_of_nil in Hin.
Defined.

(** The plain variant, asked to search with the token "ge", hands the
    query builder "ge" itself and not its translation ">=". *)
Lemma plain_search_operator_untranslated :
  let c := cruds.NewCRUDS "people" in
  let q := cruds.mkQuery "age" "ge" (firestore.VInt 18) in
  head (calls (run (sample.stub_env sample.healthy) (cruds.Search c [q]) tt)) =
    Some (GetAll (firestore.mkQuery "people"
            [firestore.mkFilter "age" "ge" (firestore.VInt 18)])) /\
  head (calls (run (sample.stub_env sample.healthy) (cruds.Search c [q]) tt)) <>
    Some (GetAll (firestore.mkQuery "people"
            [firestore.mkFilter "age" (fro "ge") (firestore.VInt 18)])).
Proof.
  split; [reflexivity |]. intros Heq. vm_compute in Heq. discriminate Heq.
Qed.

(** ** Search: rejected queries *)

(** C6: when the backend answers a Search with a non-empty predicate list
    by an error of status FailedPrecondition, the rich variant returns the
    wrapped BadRequest error and the plain variant its query-not-supported
    sentinel, in both cases with an empty result; an error of any other
    status is returned as the backend made it, again with an empty
    result. *)
Theorem search_rejected_query `{Shape Document} {W : Type} (E : env Document W) (w w1 : W)
    (cd : dao.DAO) (cc : cruds.CRUDS) (qd : list dao.Query) (qc : list cruds.Query)
    (snapshots : list firestore.DocumentSnapshot) (b : ClientError) :
  qd <> [] -> qc <> [] ->
  E (GetAll (dao_query cd qd)) w = ((snapshots, Some b), w1) ->
  E (GetAll (cruds_query cc qc)) w = ((snapshots, Some b), w1) ->
  (status_Code b = codes.FailedPrecondition ->
     run E (dao.Search cd qd) w =
       mkOutcome (Some ([], Some (Wrap dao.cause_bad_request ehandler.ErrBadRequest)))
         w1 [GetAll (dao_query cd qd)] /\
     run E (cruds.Search cc qc) w =
       mkOutcome (Some ([], Some ErrQueryNotSupported)) w1 [GetAll (cruds_query cc qc)] /\
     kind_of (Wrap dao.cause_bad_request ehandler.ErrBadRequest) = KBadRequest /\
     kind_of ErrQueryNotSupported = KBadRequest) /\
  (status_Code b <> codes.FailedPrecondition ->
     run E (dao.Search cd qd) w =
       mkOutcome (Some ([], Some (Client b))) w1 [GetAll (dao_query cd qd)] /\
     run E (cruds.Search cc qc) w =
       mkOutcome (Some ([], Some (Client b))) w1 [GetAll (cruds_query cc qc)]).
Proof.
  intros Hqd Hqc HEd HEc.
  rewrite (dao_search_failed _ _ _ _ _ _ _ HEd), (cruds_search_failed _ _ _ _ _ _ _ HEc).
  destruct qd as [| q1 r1]; [done |]. destruct qc as [| q2 r2]; [done |].
  cbn [length Nat.eqb].
  split; intros Hb.
  - rewrite !decide_True by done. repeat split.
  - rewrite !decide_False by done. repeat split.
Qed.

Lemma search_rejected_query_witness :
  let E := sample.stub_env
             (sample.with_getall ([], Some (sample.status codes.FailedPrecondition))
                sample.healthy) in
  run E (dao.Search sample.people_dao sample.mixed_dao) tt =
    mkOutcome (Some ([], Some (Wrap dao.cause_bad_request ehandler.ErrBadRequest)))
      tt [GetAll (dao_query sample.people_dao sample.mixed_dao)] /\
  run E (cruds.Search sample.people_cruds sample.mixed_cruds) tt =
    mkOutcome (Some ([], Some ErrQueryNotSupported))
      tt [GetAll (cruds_query sample.people_cruds sample.mixed_cruds)].
Proof.
  intros E.
  destruct (search_rejected_query E tt tt sample.people_dao sample.people_cruds
              sample.mixed_dao sample.mixed_cruds []
              (sample.status codes.FailedPrecondition))
    as [Hrejected _]; [discriminate | discriminate | reflexivity | reflexivity |].
  destruct (Hrejected eq_refl) as (Hd & Hc & _). split; [exact Hd | exact Hc].
Defined.

(** ** Search: corrupt snapshots *)

Section OneCorrupt.

Context `{Shape Document} {W : Type}.
Implicit Types (E : env Document W) (w : W).

(** The rich variant returns the documents of the valid snapshots and
    logs one notice, wherever the corrupt snapshot stands. *)
Lemma dao_search_one_corrupt E c queries w w1 pre s post :
  Forall (fun x => corrupt x = false) pre ->
  corrupt s = true ->
  Forall (fun x => corrupt x = false) post ->
  E (GetAll (dao_query c queries)) w = ((pre ++ s :: post, None), w1) ->
  exists w' wrapped,
    run E (dao.Search c queries) w =
      mkOutcome (Some (valid_docs pre ++ valid_docs post, None)) w'
        [GetAll (dao_query c queries);
         LogError (Named (dao.log c) "Search") s wrapped] /\
    kind_of wrapped = KCorrupt /\
    length (valid_docs pre ++ valid_docs post) = length pre + length post.
Proof.
  intros Hpre Hs Hpost HE.
  destruct (dao_search_fetched _ _ _ _ _ _ HE) as [w' Hrun].
  destruct (valid_docs_all_valid _ Hpre) as (Lpre & Npre).
  destruct (valid_docs_all_valid _ Hpost) as (Lpost & Npost).
  unfold corrupt in Hs. destruct (DataTo s) as [d | b] eqn:Hd; [done |].
  exists w', (Wrap (dao.cause_corrupt (Error_text b)) ehandler.ErrCorrupt).
  rewrite Hrun, valid_docs_app, notices_app. simpl. rewrite Hd, Npre, Npost.
  rewrite length_app, Lpre, Lpost. done.
Qed.

(** The plain variant returns the same documents; its notice is the
    error value it returns, and that is there only when the corrupt
    snapshot is the last one. *)
Lemma cruds_search_one_corrupt E c queries w w1 pre s post :
  Forall (fun x => corrupt x = false) pre ->
  corrupt s = true ->
  Forall (fun x => corrupt x = false) post ->
  E (GetAll (cruds_query c queries)) w = ((pre ++ s :: post, None), w1) ->
  run E (cruds.Search c queries) w =
    mkOutcome
      (Some (valid_docs pre ++ valid_docs post,
             match post with
             | [] => Some ErrDocumentSkipped
             | _ :: _ => None
             end))
      w1 [GetAll (cruds_query c queries)].
Proof.
  intros Hpre Hs Hpost HE.
  rewrite (cruds_search_fetched _ _ _ _ _ _ HE). do 2 f_equal.
  rewrite (surjective_pairing (cruds.collect _ _ _)).
  rewrite cruds_collect_docs, cruds_collect_err, valid_docs_app. simpl.
  unfold corrupt in Hs. destruct (DataTo s) as [d | b] eqn:Hd; [done |].
  f_equal. rewrite last_app. simpl last.
  destruct post as [| s' post'] using rev_ind.
  - simpl. unfold corrupt. by rewrite Hd.
  - clear IHpost'. rewrite app_comm_cons, last_snoc.
    apply Forall_app in Hpost as [_ Hlast].
    apply Forall_cons in Hlast as [-> _].
    by destruct post'.
Qed.

End OneCorrupt.

(** C1: the plain variant at a corrupt snapshot that is not the last one.
    With the snapshots [bad; ada] its Search returns Ada's document and a
    nil error: the Skipped value assigned at [bad] is overwritten when
    [ada] decodes, and no notice is left (the plain variant has no other
    channel: the only operation performed is the query). With [ada; bad]
    the same call returns the Skipped error next to the document. The rich
    variant logs its one notice for [bad; ada]. *)
Theorem plain_search_skipped_notice_lost :
  let first := sample.stub_env (sample.with_getall ([sample.bad; sample.ada], None)
                                  sample.healthy) in
  let last := sample.stub_env (sample.with_getall ([sample.ada; sample.bad], None)
                                 sample.healthy) in
  run first (cruds.Search sample.people_cruds []) tt =
    mkOutcome (Some ([sample.mkPerson "Ada" 36], None)) tt
      [GetAll (firestore.Collection "people")] /\
  run last (cruds.Search sample.people_cruds []) tt =
    mkOutcome (Some ([sample.mkPerson "Ada" 36], Some ErrDocumentSkipped)) tt
      [GetAll (firestore.Collection "people")] /\
  run first (dao.Search sample.people_dao []) tt =
    mkOutcome (Some ([sample.mkPerson "Ada" 36], None)) tt
      [GetAll (firestore.Collection "people");
       LogError "firestore.DAO.Search" sample.bad
         (Wrap (dao.cause_corrupt (Error_text (sample.mismatch "age")))
            ehandler.ErrCorrupt)].
Proof. vm_compute. repeat split. Qed.

(** ** Create *)

Section CreateRuns.

Context `{Shape Document} {W : Type}.
Implicit Types (E : env Document W) (w : W).

Lemma dao_create_failed E c id document w now w0 b w1 :
  E TimeNow w = (now, w0) ->
  E (DocCreate (dao.path c) id document) w0 = (Some b, w1) ->
  run E (dao.Create c id document) w =
    mkOutcome
      (Some (Some (if decide (status_Code b = codes.AlreadyExists)
                   then Wrap (dao.cause_conflict id) ehandler.ErrConflict
                   else Client b)))
      w1 [TimeNow; DocCreate (dao.path c) id document].
Proof.
  intros Hnow Hcreate. unfold dao.Create. simpl. rewrite Hnow. simpl.
  rewrite Hcreate. simpl.
  by destruct (decide (status_Code b = codes.AlreadyExists)).
Qed.

Lemma dao_create_created E c id document w now w0 w1 r w2 :
  E TimeNow w = (now, w0) ->
  E (DocCreate (dao.path c) id document) w0 = (None, w1) ->
  E (DocUpdate (dao.path c) id (timestamps now)) w1 = (r, w2) ->
  run E (dao.Create c id document) w =
    mkOutcome (Some (Client <$> r)) w2
      [TimeNow; DocCreate (dao.path c) id document;
       DocUpdate (dao.path c) id (timestamps now)].
Proof.
  intros Hnow Hcreate Hupdate. unfold dao.Create. simpl. rewrite Hnow. simpl.
  rewrite Hcreate. simpl. fold (timestamps now). rewrite Hupdate.
  by destruct r.
Qed.

Lemma cruds_create_run E c id document w r w1 :
  E (DocCreate (cruds.path c) id document) w = (r, w1) ->
  run E (cruds.Create c id document) w =
    mkOutcome
      (Some (match r with
             | Some b => Some (if decide (status_Code b = codes.AlreadyExists)
                               then ErrDocumentAlreadyExists
                               else Client b)
             | None => None
             end))
      w1 [DocCreate (cruds.path c) id document].
Proof.
  intros Hcreate. unfold cruds.Create. simpl. rewrite Hcreate.
  destruct r as [b |]; simpl; [| reflexivity].
  by destruct (decide (status_Code b = codes.AlreadyExists)).
Qed.

End CreateRuns.

Section CreateWrites.

Context `{Shape Document} {W : Type}.
Implicit Types (E : env Document W) (w : W).

Lemma recording_answer E (o : op Document) w (log : list (write Document)) a w' :
  E o w = (a, w') -> recording E o (w, log) = (a, (w', log ++ accepted o a)).
Proof. intros HE. unfold recording. simpl. by rewrite HE. Qed.

Lemma dao_create_writes_failed E c id document w now w0 b w1 :
  E TimeNow w = (now, w0) ->
  E (DocCreate (dao.path c) id document) w0 = (Some b, w1) ->
  writes_of E (dao.Create c id document) w = [].
Proof.
  intros Hnow Hcreate. unfold writes_of.
  rewrite (dao_create_failed (recording E) c id document (w, []) now (w0, []) b (w1, [])).
  - reflexivity.
  - by rewrite (recording_answer _ _ _ _ _ _ Hnow).
  - by rewrite (recording_answer _ _ _ _ _ _ Hcreate).
Qed.

Lemma dao_create_writes E c id document w now w0 w1 r w2 :
  E TimeNow w = (now, w0) ->
  E (DocCreate (dao.path c) id document) w0 = (None, w1) ->
  E (DocUpdate (dao.path c) id (timestamps now)) w1 = (r, w2) ->
  writes_of E (dao.Create c id document) w =
    Created (dao.path c) id document
    :: (if r is None then [Updated (dao.path c) id (timestamps now)] else []).
Proof.
  intros Hnow Hcreate Hupdate. unfold writes_of.
  rewrite (dao_create_created (recording E) c id document (w, []) now (w0, [])
             (w1, [Created (dao.path c) id document]) r
             (w2, Created (dao.path c) id document
                  :: (if r is None then [Updated (dao.path c) id (timestamps now)] else []))).
  - reflexivity.
  - by rewrite (recording_answer _ _ _ _ _ _ Hnow).
  - by rewrite (recording_answer _ _ _ _ _ _ Hcreate).
  - rewrite (recording_answer _ _ _ _ _ _ Hupdate). by destruct r.
Qed.

Lemma cruds_create_writes E c id document w r w1 :
  E (DocCreate (cruds.path c) id document) w = (r, w1) ->
  writes_of E (cruds.Create c id document) w =
    (if r is None then [Created (cruds.path c) id document] else []).
Proof.
  intros Hcreate. unfold writes_of.
  rewrite (cruds_create_run (recording E) c id document (w, []) r
             (w1, if r is None then [Created (cruds.path c) id document] else [])).
  - reflexivity.
  - rewrite (recording_answer _ _ _ _ _ _ Hcreate). by destruct r.
Qed.

Lemma stored_created path id (document : Document) :
  stored path id [Created path id document] = Some (mkStored document []).
Proof. unfold stored. simpl. by rewrite decide_True. Qed.

Lemma stored_created_updated path id (document : Document) fus :
  stored path id [Created path id document; Updated path id fus] =
  Some (mkStored document fus).
Proof. unfold stored. simpl. by rewrite !decide_True. Qed.

End CreateWrites.

(** C7 (as amended): when the backend's create reports AlreadyExists, the
    rich variant returns the Conflict error whose cause names the key and
    the plain variant its already-exists sentinel, and nothing is stored;
    any other error of the create is returned as the backend made it. The
    one document handed to the backend's create, at the caller's key, is
    the caller's document. When the create succeeds, the plain variant
    leaves exactly that document stored, and so does the rich variant when
    its follow-up fails; when the follow-up succeeds, the rich variant
    returns nil and leaves the caller's document stored with the fields
    [created] and [updated] set on it. *)
Theorem create_conflict_or_passthrough `{Shape Document} {W : Type}
    (E : env Document W) (w w0 w1 w1' w2 : W) (cd : dao.DAO) (cc : cruds.CRUDS)
    (id : string) (document : Document) (now : Z) (r r2 : option ClientError) :
  E TimeNow w = (now, w0) ->
  E (DocCreate (dao.path cd) id document) w0 = (r, w1) ->
  E (DocCreate (cruds.path cc) id document) w = (r, w1') ->
  E (DocUpdate (dao.path cd) id
       [ firestore.mkUpdate "created" (firestore.VTime now);
         firestore.mkUpdate "updated" (firestore.VTime now) ]) w1 = (r2, w2) ->
  (forall b, r = Some b -> status_Code b = codes.AlreadyExists ->
     run E (dao.Create cd id document) w =
       mkOutcome
         (Some (Some (Wrap ("(document '" +:+ id +:+ "' already exists)")
                        ehandler.ErrConflict)))
         w1 [TimeNow; DocCreate (dao.path cd) id document] /\
     run E (cruds.Create cc id document) w =
       mkOutcome (Some (Some ErrDocumentAlreadyExists))
         w1' [DocCreate (cruds.path cc) id document] /\
     kind_of (Wrap ("(document '" +:+ id +:+ "' already exists)") ehandler.ErrConflict)
       = KConflict /\
     kind_of ErrDocumentAlreadyExists = KConflict /\
     stored (dao.path cd) id (writes_of E (dao.Create cd id document) w) = None /\
     stored (cruds.path cc) id (writes_of E (cruds.Create cc id document) w) = None) /\
  (forall b, r = Some b -> status_Code b <> codes.AlreadyExists ->
     run E (dao.Create cd id document) w =
       mkOutcome (Some (Some (Client b))) w1 [TimeNow; DocCreate (dao.path cd) id document] /\
     run E (cruds.Create cc id document) w =
       mkOutcome (Some (Some (Client b))) w1' [DocCreate (cruds.path cc) id document]) /\
  created (calls (run E (dao.Create cd id document) w)) = [(dao.path cd, id, document)] /\
  created (calls (run E (cruds.Create cc id document) w)) = [(cruds.path cc, id, document)] /\
  (r = None ->
     run E (cruds.Create cc id document) w =
       mkOutcome (Some None) w1' [DocCreate (cruds.path cc) id document] /\
     stored (cruds.path cc) id (writes_of E (cruds.Create cc id document) w) =
       Some (mkStored document []) /\
     (forall b2, r2 = Some b2 ->
        returned (run E (dao.Create cd id document) w) = Some (Some (Client b2)) /\
        stored (dao.path cd) id (writes_of E (dao.Create cd id document) w) =
          Some (mkStored document [])) /\
     (r2 = None ->
        returned (run E (dao.Create cd id document) w) = Some None /\
        stored (dao.path cd) id (writes_of E (dao.Create cd id document) w) =
          Some (mkStored document
                  [ firestore.mkUpdate "created" (firestore.VTime now);
                    firestore.mkUpdate "updated" (firestore.VTime now) ]))).
Proof.
  intros Hnow Hd Hc Hu. fold (timestamps now) in Hu.
  rewrite (cruds_create_run _ _ _ _ _ _ _ Hc), (cruds_create_writes _ _ _ _ _ _ _ Hc).
  split; [| split; [| split; [| split; [reflexivity |]]]].
  - intros b -> Hb.
    rewrite (dao_create_failed _ _ _ _ _ _ _ _ _ Hnow Hd).
    rewrite (dao_create_writes_failed _ _ _ _ _ _ _ _ _ Hnow Hd).
    rewrite !decide_True by done. repeat split.
  - intros b -> Hb. rewrite (dao_create_failed _ _ _ _ _ _ _ _ _ Hnow Hd).
    rewrite !decide_False by done. repeat split.
  - destruct r as [b |].
    + by rewrite (dao_create_failed _ _ _ _ _ _ _ _ _ Hnow Hd).
    + by rewrite (dao_create_created _ _ _ _ _ _ _ _ _ _ Hnow Hd Hu).
  - intros ->.
    rewrite (dao_create_created _ _ _ _ _ _ _ _ _ _ Hnow Hd Hu).
    rewrite (dao_create_writes _ _ _ _ _ _ _ _ _ _ Hnow Hd Hu).
    split; [reflexivity |]. split; [apply stored_created |]. split.
    + intros b2 ->. split; [reflexivity | apply stored_created].
    + intros ->. split; [reflexivity | apply stored_created_updated].
Qed.

Lemma create_conflict_or_passthrough_witness :
  let E := sample.stub_env
             (sample.with_create (Some (sample.status codes.AlreadyExists)) sample.healthy) in
  run E (dao.Create sample.people_dao "ada" (sample.mkPerson "Ada" 36)) tt =
    mkOutcome (Some (Some (Wrap "(document 'ada' already exists)" ehandler.ErrConflict)))
      tt [TimeNow; DocCreate "people" "ada" (sample.mkPerson "Ada" 36)] /\
  run E (cruds.Create sample.people_cruds "ada" (sample.mkPerson "Ada" 36)) tt =
    mkOutcome (Some (Some ErrDocumentAlreadyExists))
      tt [DocCreate "people" "ada" (sample.mkPerson "Ada" 36)] /\
  stored "people" "ada"
    (writes_of (sample.stub_env sample.healthy)
       (cruds.Create sample.people_cruds "ada" (sample.mkPerson "Ada" 36)) tt) =
    Some (mkStored (sample.mkPerson "Ada" 36) []).
Proof.
  intros E. split; [| split].
  - destruct (create_conflict_or_passthrough E tt tt tt tt tt sample.people_dao
                sample.people_cruds "ada" (sample.mkPerson "Ada" 36) 1700000000
                (Some (sample.status codes.AlreadyExists)) None)
      as [Hconflict _]; [reflexivity | reflexivity | reflexivity | reflexivity |].
    exact (proj1 (Hconflict _ eq_refl eq_refl)).
  - destruct (create_conflict_or_passthrough E tt tt tt tt tt sample.people_dao
                sample.people_cruds "ada" (sample.mkPerson "Ada" 36) 1700000000
                (Some (sample.status codes.AlreadyExists)) None)
      as [Hconflict _]; [reflexivity | reflexivity | reflexivity | reflexivity |].
    exact (proj1 (proj2 (Hconflict _ eq_refl eq_refl))).
  - destruct (create_conflict_or_passthrough (sample.stub_env sample.healthy)
                tt tt tt tt tt sample.people_dao
                sample.people_cruds "ada" (sample.mkPerson "Ada" 36) 1700000000
                None None)
      as (_ & _ & _ & _ & Hcreated); [reflexivity | reflexivity | reflexivity | reflexivity |].
    exact (proj1 (proj2 (Hcreated eq_refl))).
Defined.

(** After a rich Create on which both backend calls succeed, the stored
    document is not the caller's document alone: the fields [created] and
    [updated] have been set on it. *)
Lemma rich_create_stores_timestamps :
  let E := sample.stub_env sample.healthy in
  let ada := sample.mkPerson "Ada" 36 in
  returned (run E (dao.Create sample.people_dao "ada" ada) tt) = Some None /\
  stored "people" "ada" (writes_of E (dao.Create sample.people_dao "ada" ada) tt) =
    Some (mkStored ada
            [ firestore.mkUpdate "created" (firestore.VTime 1700000000);
              firestore.mkUpdate "updated" (firestore.VTime 1700000000) ]) /\
  stored "people" "ada" (writes_of E (dao.Create sample.people_dao "ada" ada) tt) <>
    Some (mkStored ada []).
Proof.
  intros E ada. split; [reflexivity |]. split; [by vm_compute |].
  intros Heq. vm_compute in Heq. discriminate Heq.
Qed.

(** C4: once the backend's create has succeeded, the rich variant's Create
    issues one Update, as a second call to the backend, whose two
    instructions set [created] and [updated] to the one timestamp read
    when Create was entered, and returns what that call returns: if the
    follow-up fails, its error, although the create has been performed
    with the document as supplied. *)
Theorem create_timestamp_followup `{Shape Document} {W : Type}
    (E : env Document W) (w w0 w1 w2 : W) (c : dao.DAO)
    (id : string) (document : Document) (now : Z) (r : option ClientError) :
  E TimeNow w = (now, w0) ->
  E (DocCreate (dao.path c) id document) w0 = (None, w1) ->
  E (DocUpdate (dao.path c) id
       [ firestore.mkUpdate "created" (firestore.VTime now);
         firestore.mkUpdate "updated" (firestore.VTime now) ]) w1 = (r, w2) ->
  run E (dao.Create c id document) w =
    mkOutcome (Some (Client <$> r)) w2
      [ TimeNow;
        DocCreate (dao.path c) id document;
        DocUpdate (dao.path c) id
          [ firestore.mkUpdate "created" (firestore.VTime now);
            firestore.mkUpdate "updated" (firestore.VTime now) ] ] /\
  (forall b, r = Some b ->
     returned (run E (dao.Create c id document) w) = Some (Some (Client b)) /\
     created (calls (run E (dao.Create c id document) w)) = [(dao.path c, id, document)]).
Proof.
  intros Hnow Hcreate Hupdate.
  rewrite (dao_create_created _ _ _ _ _ _ _ _ _ _ Hnow Hcreate Hupdate).
  split; [reflexivity |]. by intros b ->.
Qed.

Lemma create_timestamp_followup_witness :
  let E := sample.stub_env
             (sample.with_update (Some (sample.status codes.Unavailable)) sample.healthy) in
  run E (dao.Create sample.people_dao "ada" (sample.mkPerson "Ada" 36)) tt =
    mkOutcome (Some (Some (Client (sample.status codes.Unavailable)))) tt
      [ TimeNow;
        DocCreate "people" "ada" (sample.mkPerson "Ada" 36);
        DocUpdate "people" "ada"
          [ firestore.mkUpdate "created" (firestore.VTime 1700000000);
            firestore.mkUpdate "updated" (firestore.VTime 1700000000) ] ].
Proof.
  intros E.
  refine (proj1 (create_timestamp_followup E tt tt tt tt sample.people_dao "ada"
                   (sample.mkPerson "Ada" 36) 1700000000
                   (Some (sample.status codes.Unavailable)) _ _ _)); reflexivity.
Defined.

(** ** Read *)

Section ReadRuns.

Context `{Shape Document} {W : Type}.
Implicit Types (E : env Document W) (w : W).

Lemma dao_read_error E c id w snapshot b w1 :
  E (DocGet (dao.path c) id) w = ((snapshot, Some b), w1) ->
  run E (dao.Read c id) w =
    mkOutcome
      (match snapshot with
       | None => None
       | Some s =>
           Some (zero, Some (if firestore.Exists s then Client b
                             else Wrap (dao.cause_not_found id) ehandler.ErrNotFound))
       end)
      w1 [DocGet (dao.path c) id].
Proof.
  intros Hget. unfold dao.Read. simpl. rewrite Hget.
  destruct snapshot as [s |]; simpl; [| reflexivity].
  by destruct (firestore.Exists s).
Qed.

Lemma dao_read_snapshot E c id w snapshot w1 :
  E (DocGet (dao.path c) id) w = ((snapshot, None), w1) ->
  run E (dao.Read c id) w =
    mkOutcome
      (match snapshot with
       | None => None
       | Some s =>
           Some (match DataTo s with
                 | inl d => (d, None)
                 | inr b =>
                     (zero, Some (Wrap (dao.cause_corrupt (Error_text b))
                                    ehandler.ErrCorrupt))
                 end)
       end)
      w1 [DocGet (dao.path c) id].
Proof.
  intros Hget. unfold dao.Read. simpl. rewrite Hget.
  destruct snapshot as [s |]; simpl; [| reflexivity].
  by destruct (DataTo s).
Qed.

Lemma cruds_read_error E c id w snapshot b w1 :
  E (DocGet (cruds.path c) id) w = ((snapshot, Some b), w1) ->
  run E (cruds.Read c id) w =
    mkOutcome
      (match snapshot with
       | None => None
       | Some s =>
           Some (zero, Some (if firestore.Exists s then Client b
                             else ErrDocumentNotFound))
       end)
      w1 [DocGet (cruds.path c) id].
Proof.
  intros Hget. unfold cruds.Read. simpl. rewrite Hget.
  destruct snapshot as [s |]; simpl; [| reflexivity].
  by destruct (firestore.Exists s).
Qed.

Lemma cruds_read_snapshot E c id w snapshot w1 :
  E (DocGet (cruds.path c) id) w = ((snapshot, None), w1) ->
  run E (cruds.Read c id) w =
    mkOutcome
      (match snapshot with
       | None => None
       | Some s =>
           Some (match DataTo s with
                 | inl d => (d, None)
                 | inr b => (zero, Some (Client b))
                 end)
       end)
      w1 [DocGet (cruds.path c) id].
Proof.
  intros Hget. unfold cruds.Read. simpl. rewrite Hget.
  destruct snapshot as [s |]; simpl; [| reflexivity].
  by destruct (DataTo s).
Qed.

End ReadRuns.

(** C3 (as amended): when the backend returns a snapshot and no error, and
    the snapshot does not decode, the rich variant's Read returns the zero
    Document with a Corrupt error whose cause quotes the text of the
    decoding error; the plain variant's Read returns the zero Document
    with the decoding error itself, unchanged. *)
Theorem read_undecodable_snapshot `{Shape Document} {W : Type}
    (E : env Document W) (w w1 w1' : W) (cd : dao.DAO) (cc : cruds.CRUDS)
    (id : string) (s : firestore.DocumentSnapshot) (b : ClientError) :
  E (DocGet (dao.path cd) id) w = ((Some s, None), w1) ->
  E (DocGet (cruds.path cc) id) w = ((Some s, None), w1') ->
  DataTo s = inr b ->
  run E (dao.Read cd id) w =
    mkOutcome
      (Some (zero,
             Some (Wrap ("(firestore serialization failed: " +:+ Error_text b +:+ ")")
                     ehandler.ErrCorrupt)))
      w1 [DocGet (dao.path cd) id] /\
  kind_of (Wrap ("(firestore serialization failed: " +:+ Error_text b +:+ ")")
             ehandler.ErrCorrupt) = KCorrupt /\
  run E (cruds.Read cc id) w =
    mkOutcome (Some (zero, Some (Client b))) w1' [DocGet (cruds.path cc) id] /\
  kind_of (Client b) = KPassthrough.
Proof.
  intros Hd Hc Hs.
  rewrite (dao_read_snapshot _ _ _ _ _ _ Hd), (cruds_read_snapshot _ _ _ _ _ _ Hc), Hs.
  repeat split.
Qed.

Lemma read_undecodable_snapshot_witness :
  let E := sample.stub_env (sample.with_get (Some sample.bad, None) sample.healthy) in
  run E (dao.Read sample.people_dao "eve") tt =
    mkOutcome
      (Some (sample.mkPerson "" 0,
             Some (Wrap "(firestore serialization failed: firestore: cannot set field age)"
                     ehandler.ErrCorrupt)))
      tt [DocGet "people" "eve"] /\
  run E (cruds.Read sample.people_cruds "eve") tt =
    mkOutcome (Some (sample.mkPerson "" 0, Some (Client (sample.mismatch "age"))))
      tt [DocGet "people" "eve"].
Proof.
  intros E.
  destruct (read_undecodable_snapshot E tt tt tt sample.people_dao sample.people_cruds
              "eve" sample.bad (sample.mismatch "age"))
    as (Hd & _ & Hc & _); [reflexivity | reflexivity | by vm_compute |].
  split; [exact Hd | exact Hc].
Defined.

(** The plain variant's Read of a snapshot that does not decode returns an
    error that is not of the Corrupt kind. *)
Lemma plain_read_undecodable_not_corrupt :
  let E := sample.stub_env (sample.with_get (Some sample.bad, None) sample.healthy) in
  DataTo sample.bad = inr (sample.mismatch "age") /\
  exists e,
    returned (run E (cruds.Read sample.people_cruds "eve") tt) =
      Some (sample.mkPerson "" 0, Some e) /\
    kind_of e <> KCorrupt.
Proof.
  split; [by vm_compute |].
  exists (Client (sample.mismatch "age")). split; [by vm_compute | discriminate].
Qed.

(** C8: when the backend reports that no document exists at the key, Read
    returns the zero Document with the NotFound error, which in the rich
    variant names the key in its cause and in the plain variant is the
    not-found sentinel. *)
Theorem read_absent_key `{Shape Document} {W : Type}
    (E : env Document W) (w w1 w1' : W) (cd : dao.DAO) (cc : cruds.CRUDS) (id : string)
    (r : option firestore.DocumentSnapshot * option ClientError) :
  E (DocGet (dao.path cd) id) w = (r, w1) ->
  E (DocGet (cruds.path cc) id) w = (r, w1') ->
  reports_absent r ->
  run E (dao.Read cd id) w =
    mkOutcome (Some (zero, Some (Wrap ("(ID: " +:+ id +:+ ")") ehandler.ErrNotFound)))
      w1 [DocGet (dao.path cd) id] /\
  kind_of (Wrap ("(ID: " +:+ id +:+ ")") ehandler.ErrNotFound) = KNotFound /\
  run E (cruds.Read cc id) w =
    mkOutcome (Some (zero, Some ErrDocumentNotFound)) w1' [DocGet (cruds.path cc) id] /\
  kind_of ErrDocumentNotFound = KNotFound.
Proof.
  intros Hd Hc (s & b & -> & Hs & _).
  rewrite (dao_read_error _ _ _ _ _ _ _ Hd), (cruds_read_error _ _ _ _ _ _ _ Hc), Hs.
  repeat split.
Qed.

Lemma read_absent_key_witness :
  let E := sample.stub_env
             (sample.with_get (Some (sample.absent "zoe"), Some (sample.status codes.NotFound))
                sample.healthy) in
  run E (dao.Read sample.people_dao "zoe") tt =
    mkOutcome (Some (sample.mkPerson "" 0, Some (Wrap "(ID: zoe)" ehandler.ErrNotFound)))
      tt [DocGet "people" "zoe"] /\
  run E (cruds.Read sample.people_cruds "zoe") tt =
    mkOutcome (Some (sample.mkPerson "" 0, Some ErrDocumentNotFound))
      tt [DocGet "people" "zoe"].
Proof.
  intros E.
  destruct (read_absent_key E tt tt tt sample.people_dao sample.people_cruds "zoe"
              (Some (sample.absent "zoe"), Some (sample.status codes.NotFound)))
    as (Hd & _ & Hc & _); [reflexivity | reflexivity | |].
  - exists (sample.absent "zoe"), (sample.status codes.NotFound). repeat split.
  - split; [exact Hd | exact Hc].
Defined.

(** C10: when the backend's Get returns an error, Read calls [Exists] on
    the snapshot returned with it. With a nil snapshot that call panics,
    so this branch returns exactly when the snapshot is not nil; and then
    the existence flag alone decides the outcome, whatever the status code
    of the error: NotFound when the flag is false, the backend's error as
    it is when the flag is true. *)
Theorem read_error_branch `{Shape Document} {W : Type}
    (E : env Document W) (w w1 w1' : W) (cd : dao.DAO) (cc : cruds.CRUDS) (id : string)
    (snapshot : option firestore.DocumentSnapshot) (b : ClientError) :
  E (DocGet (dao.path cd) id) w = ((snapshot, Some b), w1) ->
  E (DocGet (cruds.path cc) id) w = ((snapshot, Some b), w1') ->
  (returned (run E (dao.Read cd id) w) <> None <-> snapshot <> None) /\
  (returned (run E (cruds.Read cc id) w) <> None <-> snapshot <> None) /\
  (forall s, snapshot = Some s ->
     returned (run E (dao.Read cd id) w) =
       Some (zero, Some (if firestore.Exists s then Client b
                         else Wrap (dao.cause_not_found id) ehandler.ErrNotFound)) /\
     returned (run E (cruds.Read cc id) w) =
       Some (zero, Some (if firestore.Exists s then Client b else ErrDocumentNotFound)) /\
     kind_of (if firestore.Exists s then Client b
              else Wrap (dao.cause_not_found id) ehandler.ErrNotFound) =
       (if firestore.Exists s then KPassthrough else KNotFound) /\
     kind_of (if firestore.Exists s then Client b else ErrDocumentNotFound) =
       (if firestore.Exists s then KPassthrough else KNotFound)).
Proof.
  intros Hd Hc.
  rewrite (dao_read_error _ _ _ _ _ _ _ Hd), (cruds_read_error _ _ _ _ _ _ _ Hc).
  destruct snapshot as [s |]; simpl.
  - split; [done |]. split; [done |].
    intros s' [= <-]. repeat split; by destruct (firestore.Exists s).
  - split; [split; intros Hne; by destruct Hne |].
    split; [split; intros Hne; by destruct Hne |].
    intros s' [=].
Qed.

Lemma read_error_branch_witness :
  let down := sample.stub_env
                (sample.with_get (None, Some (sample.status codes.Unavailable))
                   sample.healthy) in
  let odd := sample.stub_env
               (sample.with_get (Some sample.ada, Some (sample.status codes.NotFound))
                  sample.healthy) in
  returned (run down (dao.Read sample.people_dao "ada") tt) = None /\
  returned (run odd (dao.Read sample.people_dao "ada") tt) =
    Some (sample.mkPerson "" 0, Some (Client (sample.status codes.NotFound))).
Proof.
  intros down odd. split.
  - destruct (read_error_branch down tt tt tt sample.people_dao sample.people_cruds "ada"
                None (sample.status codes.Unavailable) eq_refl eq_refl) as ([Hnil _] & _).
    destruct (returned (run down (dao.Read sample.people_dao "ada") tt)) as [x |];
      [| reflexivity].
    exfalso. by apply Hnil.
  - destruct (read_error_branch odd tt tt tt sample.people_dao sample.people_cruds "ada"
                (Some sample.ada) (sample.status codes.NotFound) eq_refl eq_refl)
      as (_ & _ & Hflag).
    exact (proj1 (Hflag sample.ada eq_refl)).
Defined.

(** ** Update *)

Lemma foldl_snoc_map {A B} (f : A -> B) (l : list A) (acc : list B) :
  foldl (fun bs a => bs ++ [f a]) acc l = acc ++ map f l.
Proof.
  revert acc. induction l as [| a l IH]; intros acc; simpl.
  - by rewrite app_nil_r.
  - by rewrite IH, <- app_assoc.
Qed.

Lemma entry_instruction kvs : map entry (map instruction kvs) = kvs.
Proof. induction kvs as [| [k v] kvs IH]; simpl; [reflexivity |]. by rewrite IH. Qed.

Section UpdateRuns.

Context `{Shape Document} {W : Type}.
Implicit Types (E : env Document W) (w : W).

Lemma dao_fromUpdate_run E update w kvs w1 :
  ranged E update w = (kvs, w1) ->
  run E (dao.fromUpdate update) w =
    mkOutcome (Some (map instruction kvs)) w1 (range_calls update).
Proof.
  intros Hrange. unfold dao.fromUpdate.
  destruct update as [m |]; simpl in *.
  - rewrite Hrange. simpl. by rewrite foldl_snoc_map.
  - by injection Hrange as <- <-.
Qed.

Lemma dao_update_run E c id update w kvs w1 now w2 r w3 :
  ranged E update w = (kvs, w1) ->
  E TimeNow w1 = (now, w2) ->
  E (DocUpdate (dao.path c) id (map instruction kvs ++ [touch now])) w2 = (r, w3) ->
  run E (dao.Update c id update) w =
    mkOutcome (Some (Client <$> r)) w3
      (range_calls update ++
       [TimeNow; DocUpdate (dao.path c) id (map instruction kvs ++ [touch now])]).
Proof.
  intros Hrange Hnow Hupdate. unfold dao.Update.
  rewrite run_bind, (dao_fromUpdate_run _ _ _ _ _ Hrange). simpl.
  rewrite Hnow. simpl. fold (touch now). rewrite Hupdate.
  by destruct r.
Qed.

Lemma cruds_update_run E c id updates w r w1 :
  E (DocUpdate (cruds.path c) id updates) w = (r, w1) ->
  run E (cruds.Update c id updates) w =
    mkOutcome (Some (Client <$> r)) w1 [DocUpdate (cruds.path c) id updates].
Proof.
  intros Hupdate. unfold cruds.Update. simpl. rewrite Hupdate. by destruct r.
Qed.

End UpdateRuns.

(** C5: the rich variant's Update of a non-nil mapping issues one backend
    call, an Update whose instruction list holds one instruction per entry
    of the mapping (none twice, none missing) followed by the instruction
    that sets [updated] to the current time, and returns what that call
    returns. For the empty mapping the list is that single instruction,
    and the call succeeds whenever the backend accepts it. *)
Theorem update_instruction_list `{Shape Document} {W : Type}
    (E : env Document W) (w w1 w2 w3 : W) (c : dao.DAO) (id : string)
    (m : gmap string firestore.Value) (kvs : list (string * firestore.Value))
    (now : Z) (r : option ClientError) :
  E (MapRange m) w = (kvs, w1) ->
  kvs ≡ₚ map_to_list m ->
  E TimeNow w1 = (now, w2) ->
  E (DocUpdate (dao.path c) id
       (map instruction kvs ++ [firestore.mkUpdate "updated" (firestore.VTime now)])) w2
    = (r, w3) ->
  let fus := map instruction kvs in
  let sent := fus ++ [firestore.mkUpdate "updated" (firestore.VTime now)] in
  run E (dao.Update c id (Some m)) w =
    mkOutcome (Some (Client <$> r)) w3
      [MapRange m; TimeNow; DocUpdate (dao.path c) id sent] /\
  map entry fus ≡ₚ map_to_list m /\
  NoDup (map firestore.Path fus) /\
  length sent = S (size m) /\
  backend_calls (calls (run E (dao.Update c id (Some m)) w)) =
    [DocUpdate (dao.path c) id sent] /\
  (m = ∅ ->
     sent = [firestore.mkUpdate "updated" (firestore.VTime now)] /\
     (r = None -> returned (run E (dao.Update c id (Some m)) w) = Some None)).
Proof.
  intros Hrange Hperm Hnow Hupdate fus sent.
  rewrite (dao_update_run E c id (Some m) w kvs w1 now w2 r w3 Hrange Hnow Hupdate).
  split; [reflexivity |].
  split; [unfold fus; by rewrite entry_instruction |].
  split.
  { unfold fus. rewrite <- list_fmap_compose.
    assert (Hfst : map (firestore.Path ∘ instruction) kvs = kvs.*1).
    { clear. induction kvs as [| [k v] l IH]; simpl; [done |]. by rewrite IH. }
    change (firestore.Path ∘ instruction <$> kvs) with
      (map (firestore.Path ∘ instruction) kvs).
    rewrite Hfst, Hperm. apply NoDup_fst_map_to_list. }
  split.
  { unfold sent, fus. rewrite length_app, length_map, Hperm, length_map_to_list.
    simpl. lia. }
  split; [reflexivity |].
  intros ->. rewrite map_to_list_empty in Hperm.
  apply Permutation_nil_r in Hperm. subst kvs.
  split; [reflexivity |]. by intros ->.
Qed.

Lemma update_instruction_list_witness :
  let E := sample.stub_env sample.healthy in
  let m : gmap string firestore.Value := {[ "name" := firestore.VString "Ada" ]} in
  run E (dao.Update sample.people_dao "ada" (Some m)) tt =
    mkOutcome (Some None) tt
      [ MapRange m; TimeNow;
        DocUpdate "people" "ada"
          [ firestore.mkUpdate "name" (firestore.VString "Ada");
            firestore.mkUpdate "updated" (firestore.VTime 1700000000) ] ] /\
  run E (dao.Update sample.people_dao "ada" (Some ∅)) tt =
    mkOutcome (Some None) tt
      [ MapRange ∅; TimeNow;
        DocUpdate "people" "ada"
          [ firestore.mkUpdate "updated" (firestore.VTime 1700000000) ] ].
Proof.
  intros E m. split.
  - refine (eq_trans
             (proj1 (update_instruction_list E tt tt tt tt sample.people_dao "ada" m
                       (map_to_list m) 1700000000 None eq_refl _ eq_refl eq_refl)) _).
    + reflexivity.
    + unfold m. rewrite map_to_list_singleton. reflexivity.
  - refine (eq_trans
             (proj1 (update_instruction_list E tt tt tt tt sample.people_dao "ada" ∅
                       (map_to_list ∅) 1700000000 None eq_refl _ eq_refl eq_refl)) _).
    + reflexivity.
    + rewrite map_to_list_empty. reflexivity.
Defined.

(** C9: in both variants Update returns the error of the backend's update
    call as the backend made it, a not-found error included: the returned
    error is never of the NotFound kind. *)
Theorem update_errors_unnormalized `{Shape Document} {W : Type}
    (E : env Document W) (w w1 w2 w3 w3' : W) (cd : dao.DAO) (cc : cruds.CRUDS)
    (id : string) (update : t_Update) (updates : list firestore.Update)
    (kvs : list (string * firestore.Value)) (now : Z) (r : option ClientError) :
  ranged E update w = (kvs, w1) ->
  E TimeNow w1 = (now, w2) ->
  E (DocUpdate (dao.path cd) id (map instruction kvs ++ [touch now])) w2 = (r, w3) ->
  E (DocUpdate (cruds.path cc) id updates) w = (r, w3') ->
  returned (run E (dao.Update cd id update) w) = Some (Client <$> r) /\
  returned (run E (cruds.Update cc id updates) w) = Some (Client <$> r) /\
  (forall b, r = Some b -> kind_of (Client b) = KPassthrough) /\
  (forall e, returned (run E (dao.Update cd id update) w) = Some (Some e) ->
             kind_of e <> KNotFound) /\
  (forall e, returned (run E (cruds.Update cc id updates) w) = Some (Some e) ->
             kind_of e <> KNotFound).
Proof.
  intros Hrange Hnow Hd Hc.
  rewrite (dao_update_run _ _ _ _ _ _ _ _ _ _ _ Hrange Hnow Hd).
  rewrite (cruds_update_run _ _ _ _ _ _ _ Hc). simpl.
  repeat split; try done; intros e He; destruct r as [b |]; simpl in He;
    try discriminate; injection He as <-; discriminate.
Qed.

Lemma update_errors_unnormalized_witness :
  let E := sample.stub_env
             (sample.with_update (Some (sample.status codes.NotFound)) sample.healthy) in
  returned (run E (dao.Update sample.people_dao "zoe" None) tt) =
    Some (Some (Client (sample.status codes.NotFound))) /\
  returned (run E (cruds.Update sample.people_cruds "zoe"
                     [firestore.mkUpdate "age" (firestore.VInt 37)]) tt) =
    Some (Some (Client (sample.status codes.NotFound))).
Proof.
  intros E.
  destruct (update_errors_unnormalized E tt tt tt tt tt sample.people_dao
              sample.people_cruds "zoe" None
              [firestore.mkUpdate "age" (firestore.VInt 37)] [] 1700000000
              (Some (sample.status codes.NotFound)) eq_refl eq_refl eq_refl eq_refl)
    as (Hd & Hc & _).
  split; [exact Hd | exact Hc].
Defined.

(** ** Further properties: Delete *)

Section DeleteRuns.

Context `{Shape Document} {W : Type}.
Implicit Types (E : env Document W) (w : W).

Lemma dao_delete_run E c id w :
  run E (dao.Delete c id) w =
    mkOutcome (Some (Client <$> (E (DocDelete (dao.path c) id) w).1))
      (E (DocDelete (dao.path c) id) w).2 [DocDelete (dao.path c) id].
Proof.
  unfold dao.Delete. simpl. destruct (E _ w) as [[b |] w1]; reflexivity.
Qed.

Lemma cruds_delete_run E c id w :
  run E (cruds.Delete c id) w =
    mkOutcome (Some (Client <$> (E (DocDelete (cruds.path c) id) w).1))
      (E (DocDelete (cruds.path c) id) w).2 [DocDelete (cruds.path c) id].
Proof.
  unfold cruds.Delete. simpl. destruct (E _ w) as [[b |] w1]; reflexivity.
Qed.

End DeleteRuns.

(** X1: in both variants Delete issues one call, the backend's delete of
    the document under the key, whatever the state of that document, and
    returns what the backend answers: nil when the backend accepts the
    delete, and otherwise the backend's error as it is, so that no error of
    Delete is ever of a normalized kind. *)
Theorem delete_unconditional_passthrough `{Shape Document} {W : Type}
    (E : env Document W) (w : W) (cd : dao.DAO) (cc : cruds.CRUDS) (id : string) :
  calls (run E (dao.Delete cd id) w) = [DocDelete (dao.path cd) id] /\
  calls (run E (cruds.Delete cc id) w) = [DocDelete (cruds.path cc) id] /\
  returned (run E (dao.Delete cd id) w) =
    Some (Client <$> (E (DocDelete (dao.path cd) id) w).1) /\
  returned (run E (cruds.Delete cc id) w) =
    Some (Client <$> (E (DocDelete (cruds.path cc) id) w).1) /\
  (forall e, returned (run E (dao.Delete cd id) w) = Some (Some e) ->
             kind_of e = KPassthrough) /\
  (forall e, returned (run E (cruds.Delete cc id) w) = Some (Some e) ->
             kind_of e = KPassthrough).
Proof.
  rewrite dao_delete_run, cruds_delete_run. simpl.
  repeat split; intros e He; injection He as He;
    destruct (E _ w) as [[b |] w1]; simpl in He; try discriminate;
    by injection He as <-.
Qed.

Lemma delete_unconditional_passthrough_witness :
  let E := sample.stub_env
             (stub_with_delete (Some (sample.status codes.NotFound)) sample.healthy) in
  kind_of (Client (sample.status codes.NotFound)) = KPassthrough.
Proof.
  intros E.
  refine (proj1 (proj2 (proj2 (proj2 (proj2
            (delete_unconditional_passthrough E tt sample.people_dao
               sample.people_cruds "zoe"))))) _ _).
  reflexivity.
Defined.

(** ** Further properties: Read *)

(** X2: when the backend returns a snapshot and no error, and the snapshot
    decodes, both variants of Read return the decoded document and a nil
    error, after the one Get. *)
Theorem read_returns_decoded_document `{Shape Document} {W : Type}
    (E : env Document W) (w w1 w1' : W) (cd : dao.DAO) (cc : cruds.CRUDS)
    (id : string) (s : firestore.DocumentSnapshot) (d : Document) :
  E (DocGet (dao.path cd) id) w = ((Some s, None), w1) ->
  E (DocGet (cruds.path cc) id) w = ((Some s, None), w1') ->
  DataTo s = inl d ->
  run E (dao.Read cd id) w = mkOutcome (Some (d, None)) w1 [DocGet (dao.path cd) id] /\
  run E (cruds.Read cc id) w = mkOutcome (Some (d, None)) w1' [DocGet (cruds.path cc) id].
Proof.
  intros Hd Hc Hs.
  rewrite (dao_read_snapshot _ _ _ _ _ _ Hd), (cruds_read_snapshot _ _ _ _ _ _ Hc), Hs.
  split; reflexivity.
Qed.

Lemma read_returns_decoded_document_witness :
  let E := sample.stub_env sample.healthy in
  run E (dao.Read sample.people_dao "ada") tt =
    mkOutcome (Some (sample.mkPerson "Ada" 36, None)) tt [DocGet "people" "ada"] /\
  run E (cruds.Read sample.people_cruds "ada") tt =
    mkOutcome (Some (sample.mkPerson "Ada" 36, None)) tt [DocGet "people" "ada"].
Proof.
  intros E.
  refine (read_returns_decoded_document E tt tt tt sample.people_dao sample.people_cruds
            "ada" sample.ada (sample.mkPerson "Ada" 36) _ _ _);
    [reflexivity | reflexivity | by vm_compute].
Defined.

Section ReadAll.

Context `{Shape Document} {W : Type}.
Implicit Types (E : env Document W) (w : W).

(** Read in every environment, by the answer of the Get. *)
Lemma dao_read_run E c id w :
  run E (dao.Read c id) w =
    mkOutcome
      (match (E (DocGet (dao.path c) id) w).1 with
       | (None, _) => None
       | (Some s, Some b) =>
           Some (zero, Some (if firestore.Exists s then Client b
                             else Wrap (dao.cause_not_found id) ehandler.ErrNotFound))
       | (Some s, None) =>
           Some (match DataTo s with
                 | inl d => (d, None)
                 | inr b =>
                     (zero, Some (Wrap (dao.cause_corrupt (Error_text b))
                                    ehandler.ErrCorrupt))
                 end)
       end)
      (E (DocGet (dao.path c) id) w).2 [DocGet (dao.path c) id].
Proof.
  destruct (E (DocGet (dao.path c) id) w) as [[snapshot [b |]] w1] eqn:HE.
  - rewrite (dao_read_error _ _ _ _ _ _ _ HE). by destruct snapshot.
  - rewrite (dao_read_snapshot _ _ _ _ _ _ HE). by destruct snapshot.
Qed.

Lemma cruds_read_run E c id w :
  run E (cruds.Read c id) w =
    mkOutcome
      (match (E (DocGet (cruds.path c) id) w).1 with
       | (None, _) => None
       | (Some s, Some b) =>
           Some (zero, Some (if firestore.Exists s then Client b else ErrDocumentNotFound))
       | (Some s, None) =>
           Some (match DataTo s with
                 | inl d => (d, None)
                 | inr b => (zero, Some (Client b))
                 end)
       end)
      (E (DocGet (cruds.path c) id) w).2 [DocGet (cruds.path c) id].
Proof.
  destruct (E (DocGet (cruds.path c) id) w) as [[snapshot [b |]] w1] eqn:HE.
  - rewrite (cruds_read_error _ _ _ _ _ _ _ HE). by destruct snapshot.
  - rewrite (cruds_read_snapshot _ _ _ _ _ _ HE). by destruct snapshot.
Qed.

End ReadAll.

(** X3: in every environment, a Read that returns an error returns the
    zero Document with it: no partially decoded document ever leaves Read,
    in either variant. *)
Theorem read_error_comes_with_zero `{Shape Document} {W : Type}
    (E : env Document W) (w : W) (cd : dao.DAO) (cc : cruds.CRUDS) (id : string)
    (d : Document) (e : error) :
  (returned (run E (dao.Read cd id) w) = Some (d, Some e) -> d = zero) /\
  (returned (run E (cruds.Read cc id) w) = Some (d, Some e) -> d = zero).
Proof.
  rewrite dao_read_run, cruds_read_run. simpl. split.
  - destruct (E (DocGet (dao.path cd) id) w) as [[[s |] [b |]] w1]; simpl;
      try discriminate; [by intros [= <- _] |].
    destruct (DataTo s); [discriminate | by intros [= <- _]].
  - destruct (E (DocGet (cruds.path cc) id) w) as [[[s |] [b |]] w1]; simpl;
      try discriminate; [by intros [= <- _] |].
    destruct (DataTo s); [discriminate | by intros [= <- _]].
Qed.

Lemma read_error_comes_with_zero_witness :
  let E := sample.stub_env (sample.with_get (Some sample.bad, None) sample.healthy) in
  sample.mkPerson "" 0 = zero.
Proof.
  intros E.
  refine (proj1 (read_error_comes_with_zero E tt sample.people_dao sample.people_cruds
                   "eve" (sample.mkPerson "" 0)
                   (Wrap (dao.cause_corrupt (Error_text (sample.mismatch "age")))
                      ehandler.ErrCorrupt)) _).
  by vm_compute.
Defined.

(** X4: in every environment Read performs one operation, the Get of the
    document under the key, and it panics exactly when that Get returns a
    nil snapshot, with or without an error next to it. *)
Theorem read_panics_iff_nil_snapshot `{Shape Document} {W : Type}
    (E : env Document W) (w : W) (cd : dao.DAO) (cc : cruds.CRUDS) (id : string) :
  calls (run E (dao.Read cd id) w) = [DocGet (dao.path cd) id] /\
  calls (run E (cruds.Read cc id) w) = [DocGet (cruds.path cc) id] /\
  (returned (run E (dao.Read cd id) w) = None <->
   (E (DocGet (dao.path cd) id) w).1.1 = None) /\
  (returned (run E (cruds.Read cc id) w) = None <->
   (E (DocGet (cruds.path cc) id) w).1.1 = None).
Proof.
  rewrite dao_read_run, cruds_read_run. simpl.
  split; [reflexivity |]. split; [reflexivity |]. split.
  - destruct (E (DocGet (dao.path cd) id) w) as [[[s |] [b |]] w1]; simpl;
      try done; by destruct (DataTo s).
  - destruct (E (DocGet (cruds.path cc) id) w) as [[[s |] [b |]] w1]; simpl;
      try done; by destruct (DataTo s).
Qed.

Lemma read_panics_iff_nil_snapshot_witness :
  let E := sample.stub_env (sample.with_get (None, None) sample.healthy) in
  returned (run E (dao.Read sample.people_dao "ada") tt) = None /\
  returned (run E (cruds.Read sample.people_cruds "ada") tt) = None.
Proof.
  intros E.
  destruct (read_panics_iff_nil_snapshot E tt sample.people_dao sample.people_cruds "ada")
    as (_ & _ & [_ Hd] & [_ Hc]).
  split; [apply Hd | apply Hc]; reflexivity.
Defined.

(** ** Further properties: Search *)

Section SearchAll.

Context `{Shape Document} {W : Type}.
Implicit Types (E : env Document W) (w : W).

Lemma notices_backend_calls log l : backend_calls (notices log l) = [].
Proof.
  induction l as [| s l IH]; simpl; [reflexivity |]. by destruct (DataTo s).
Qed.

Lemma notices_log_calls log l : log_calls (notices log l) = notices log l.
Proof.
  unfold log_calls. induction l as [| s l IH]; simpl; [reflexivity |].
  destruct (DataTo s); simpl; [done |]. by rewrite IH.
Qed.

Lemma notices_clock_reads log l : clock_reads (notices log l) = [].
Proof.
  induction l as [| s l IH]; simpl; [reflexivity |]. by destruct (DataTo s).
Qed.

Lemma notices_within log l path id : Forall (within path id) (notices log l).
Proof.
  induction l as [| s l IH]; simpl; [constructor |].
  destruct (DataTo s); [done |]. by constructor.
Qed.

(** Every snapshot is either decoded or noticed. *)
Lemma valid_docs_notices_length log l :
  length (valid_docs l) + length (notices log l) = length l.
Proof.
  induction l as [| s l IH]; simpl; [reflexivity |].
  destruct (DataTo s); simpl; lia.
Qed.

Lemma valid_docs_decoded l :
  Forall (fun s => corrupt s = false) l ->
  map inl (valid_docs l) = map DataTo l.
Proof.
  induction 1 as [| s l Hs _ IH]; simpl; [reflexivity |].
  unfold corrupt in Hs. destruct (DataTo s) eqn:Hd; [| done].
  simpl. by rewrite IH.
Qed.

(** Search in every environment, by the answer of the query. *)
Lemma dao_search_run E c queries w :
  exists w',
    run E (dao.Search c queries) w =
    match (E (GetAll (dao_query c queries)) w).1 with
    | (_, Some b) =>
        mkOutcome
          (Some ([], Some (if Nat.eqb (length queries) 0 then Client b
                           else if decide (status_Code b = codes.FailedPrecondition)
                                then Wrap dao.cause_bad_request ehandler.ErrBadRequest
                                else Client b)))
          w' [GetAll (dao_query c queries)]
    | (snapshots, None) =>
        mkOutcome (Some (valid_docs snapshots, None)) w'
          (GetAll (dao_query c queries)
           :: notices (Named (dao.log c) "Search") snapshots)
    end.
Proof.
  destruct (E (GetAll (dao_query c queries)) w) as [[snapshots [b |]] w1] eqn:HE.
  - exists w1. by rewrite (dao_search_failed _ _ _ _ _ _ _ HE).
  - destruct (dao_search_fetched _ _ _ _ _ _ HE) as [w' ->]. by exists w'.
Qed.

Lemma cruds_search_run E c queries w :
  run E (cruds.Search c queries) w =
  mkOutcome
    (Some (match (E (GetAll (cruds_query c queries)) w).1 with
           | (_, Some b) =>
               ([], Some (if Nat.eqb (length queries) 0 then Client b
                          else if decide (status_Code b = codes.FailedPrecondition)
                               then ErrQueryNotSupported
                               else Client b))
           | (snapshots, None) => cruds.collect snapshots [] None
           end))
    (E (GetAll (cruds_query c queries)) w).2 [GetAll (cruds_query c queries)].
Proof.
  destruct (E (GetAll (cruds_query c queries)) w) as [[snapshots [b |]] w1] eqn:HE.
  - by rewrite (cruds_search_failed _ _ _ _ _ _ _ HE).
  - by rewrite (cruds_search_fetched _ _ _ _ _ _ HE).
Qed.

Lemma cruds_collect_eq snapshots :
  cruds.collect snapshots [] None =
  (valid_docs snapshots,
   match last snapshots with
   | Some s => if corrupt s then Some ErrDocumentSkipped else None
   | None => None
   end).
Proof.
  rewrite (surjective_pairing (cruds.collect _ _ _)).
  rewrite cruds_collect_docs, cruds_collect_err. simpl.
  by destruct (last snapshots).
Qed.

End SearchAll.

(** X5: in every environment Search sends the backend one call, the
    query; the plain variant performs nothing else, and whatever else the
    rich variant performs is a call of the logger. Search never writes. *)
Theorem search_issues_one_query `{Shape Document} {W : Type}
    (E : env Document W) (w : W) (cd : dao.DAO) (cc : cruds.CRUDS)
    (qd : list dao.Query) (qc : list cruds.Query) :
  backend_calls (calls (run E (dao.Search cd qd) w)) = [GetAll (dao_query cd qd)] /\
  calls (run E (dao.Search cd qd) w) =
    GetAll (dao_query cd qd) :: log_calls (calls (run E (dao.Search cd qd) w)) /\
  calls (run E (cruds.Search cc qc) w) = [GetAll (cruds_query cc qc)].
Proof.
  rewrite cruds_search_run.
  destruct (dao_search_run E cd qd w) as [w' ->].
  destruct (E (GetAll (dao_query cd qd)) w) as [[snapshots [b |]] w1]; simpl.
  - repeat split.
  - fold (backend_calls (notices (Named (dao.log cd) "Search") snapshots)).
    fold (log_calls (notices (Named (dao.log cd) "Search") snapshots)).
    rewrite notices_backend_calls, notices_log_calls. repeat split.
Qed.

(** X6: when the query succeeds, the rich variant's Search returns the
    documents of the snapshots that decode, in the backend's order, with a
    nil error, and logs one notice per snapshot that does not decode: every
    snapshot is either returned or noticed, however many are corrupt. *)
Theorem rich_search_returns_or_logs `{Shape Document} {W : Type}
    (E : env Document W) (w w1 : W) (c : dao.DAO) (queries : list dao.Query)
    (snapshots : list firestore.DocumentSnapshot) :
  E (GetAll (dao_query c queries)) w = ((snapshots, None), w1) ->
  returned (run E (dao.Search c queries) w) = Some (valid_docs snapshots, None) /\
  log_calls (calls (run E (dao.Search c queries) w)) =
    notices (Named (dao.log c) "Search") snapshots /\
  length (valid_docs snapshots) +
  length (log_calls (calls (run E (dao.Search c queries) w))) = length snapshots /\
  length (log_calls (calls (run E (dao.Search c queries) w))) =
    length (filter (fun s => corrupt s = true) snapshots).
Proof.
  intros HE. destruct (dao_search_fetched _ _ _ _ _ _ HE) as [w' ->]. simpl.
  fold (log_calls (notices (Named (dao.log c) "Search") snapshots)).
  rewrite notices_log_calls, valid_docs_notices_length, notices_length.
  repeat split.
Qed.

Lemma rich_search_returns_or_logs_witness :
  let E := sample.stub_env
             (sample.with_getall ([sample.bad; sample.ada; sample.bad; sample.bob], None)
                sample.healthy) in
  returned (run E (dao.Search sample.people_dao sample.mixed_dao) tt) =
    Some ([sample.mkPerson "Ada" 36; sample.mkPerson "Bob" 41], None) /\
  length (log_calls (calls (run E (dao.Search sample.people_dao sample.mixed_dao) tt))) = 2.
Proof.
  intros E.
  destruct (rich_search_returns_or_logs E tt tt sample.people_dao sample.mixed_dao
              [sample.bad; sample.ada; sample.bad; sample.bob] eq_refl)
    as (Hdocs & Hlog & _).
  split.
  - rewrite Hdocs. by vm_compute.
  - rewrite Hlog. by vm_compute.
Defined.

(** X7: when the query succeeds, the plain variant's Search returns the
    documents of the snapshots that decode, in the backend's order, and
    performs nothing else; the error it returns next to them is the Skipped
    sentinel when the last snapshot does not decode, and nil otherwise,
    whatever happened at the snapshots before the last. *)
Theorem plain_search_skipped_iff_last `{Shape Document} {W : Type}
    (E : env Document W) (w w1 : W) (c : cruds.CRUDS) (queries : list cruds.Query)
    (snapshots : list firestore.DocumentSnapshot) :
  E (GetAll (cruds_query c queries)) w = ((snapshots, None), w1) ->
  run E (cruds.Search c queries) w =
    mkOutcome
      (Some (valid_docs snapshots,
             match last snapshots with
             | Some s => if corrupt s then Some ErrDocumentSkipped else None
             | None => None
             end))
      w1 [GetAll (cruds_query c queries)].
Proof.
  intros HE. by rewrite (cruds_search_fetched _ _ _ _ _ _ HE), cruds_collect_eq.
Qed.

Lemma plain_search_skipped_iff_last_witness :
  let E := sample.stub_env
             (sample.with_getall ([sample.bad; sample.ada; sample.bad; sample.bob], None)
                sample.healthy) in
  run E (cruds.Search sample.people_cruds sample.mixed_cruds) tt =
    mkOutcome (Some ([sample.mkPerson "Ada" 36; sample.mkPerson "Bob" 41], None)) tt
      [GetAll (cruds_query sample.people_cruds sample.mixed_cruds)].
Proof.
  intros E.
  refine (eq_trans
            (plain_search_skipped_iff_last E tt tt sample.people_cruds sample.mixed_cruds
               [sample.bad; sample.ada; sample.bad; sample.bob] eq_refl) _).
  by vm_compute.
Defined.

(** X8: given the same snapshots by a successful query, the two variants
    of Search return the same documents; and when every snapshot decodes
    they return one document per snapshot, in the backend's order, with a
    nil error, and the rich variant logs nothing. *)
Theorem search_variants_agree `{Shape Document} {W : Type}
    (E : env Document W) (w w1 w1' : W) (cd : dao.DAO) (cc : cruds.CRUDS)
    (qd : list dao.Query) (qc : list cruds.Query)
    (snapshots : list firestore.DocumentSnapshot) :
  E (GetAll (dao_query cd qd)) w = ((snapshots, None), w1) ->
  E (GetAll (cruds_query cc qc)) w = ((snapshots, None), w1') ->
  (exists ds err,
     returned (run E (dao.Search cd qd) w) = Some (ds, None) /\
     returned (run E (cruds.Search cc qc) w) = Some (ds, err)) /\
  (Forall (fun s => corrupt s = false) snapshots ->
   exists ds,
     returned (run E (dao.Search cd qd) w) = Some (ds, None) /\
     returned (run E (cruds.Search cc qc) w) = Some (ds, None) /\
     map inl ds = map DataTo snapshots /\
     length ds = length snapshots /\
     log_calls (calls (run E (dao.Search cd qd) w)) = []).
Proof.
  intros Hd Hc.
  destruct (dao_search_fetched _ _ _ _ _ _ Hd) as [w' ->].
  rewrite (cruds_search_fetched _ _ _ _ _ _ Hc), cruds_collect_eq. simpl.
  split; [by eauto |].
  intros Hvalid. exists (valid_docs snapshots).
  destruct (valid_docs_all_valid _ Hvalid) as [Hlen Hnone].
  rewrite (valid_docs_decoded _ Hvalid), Hlen.
  fold (log_calls (notices (Named (dao.log cd) "Search") snapshots)).
  rewrite Hnone. repeat split.
  destruct snapshots as [| s0 rest] using rev_ind; [reflexivity |].
  rewrite last_snoc. apply Forall_app in Hvalid as [_ Hlast].
  apply Forall_cons in Hlast as [-> _]. reflexivity.
Qed.

Lemma search_variants_agree_witness :
  let E := sample.stub_env sample.healthy in
  exists ds,
    returned (run E (dao.Search sample.people_dao sample.mixed_dao) tt) = Some (ds, None) /\
    returned (run E (cruds.Search sample.people_cruds sample.mixed_cruds) tt) =
      Some (ds, None) /\
    length ds = 2.
Proof.
  intros E.
  destruct (search_variants_agree E tt tt tt sample.people_dao sample.people_cruds
              sample.mixed_dao sample.mixed_cruds [sample.ada; sample.bob] eq_refl eq_refl)
    as [_ Hvalid].
  destruct Hvalid as (ds & Hd & Hc & _ & Hlen & _).
  - repeat constructor.
  - exists ds. by rewrite Hd, Hc, Hlen.
Defined.

(** X9: with an empty predicate list Search queries the whole collection,
    without any filter, and returns every error of that query as the
    backend made it: here a FailedPrecondition error is not turned into
    BadRequest, in either variant. *)
Theorem search_everything_passthrough `{Shape Document} {W : Type}
    (E : env Document W) (w w1 w1' : W) (cd : dao.DAO) (cc : cruds.CRUDS)
    (snapshots : list firestore.DocumentSnapshot) (b : ClientError) :
  E (GetAll (firestore.mkQuery (dao.path cd) [])) w = ((snapshots, Some b), w1) ->
  E (GetAll (firestore.mkQuery (cruds.path cc) [])) w = ((snapshots, Some b), w1') ->
  run E (dao.Search cd []) w =
    mkOutcome (Some ([], Some (Client b))) w1 [GetAll (firestore.mkQuery (dao.path cd) [])] /\
  run E (cruds.Search cc []) w =
    mkOutcome (Some ([], Some (Client b))) w1'
      [GetAll (firestore.mkQuery (cruds.path cc) [])] /\
  kind_of (Client b) = KPassthrough.
Proof.
  intros Hd Hc.
  change (firestore.mkQuery (dao.path cd) []) with (dao_query cd []) in *.
  change (firestore.mkQuery (cruds.path cc) []) with (cruds_query cc []) in *.
  rewrite (dao_search_failed _ _ _ _ _ _ _ Hd), (cruds_search_failed _ _ _ _ _ _ _ Hc).
  repeat split.
Qed.

Lemma search_everything_passthrough_witness :
  let E := sample.stub_env
             (sample.with_getall ([], Some (sample.status codes.FailedPrecondition))
                sample.healthy) in
  run E (dao.Search sample.people_dao []) tt =
    mkOutcome (Some ([], Some (Client (sample.status codes.FailedPrecondition)))) tt
      [GetAll (firestore.mkQuery "people" [])] /\
  run E (cruds.Search sample.people_cruds []) tt =
    mkOutcome (Some ([], Some (Client (sample.status codes.FailedPrecondition)))) tt
      [GetAll (firestore.mkQuery "people" [])].
Proof.
  intros E.
  destruct (search_everything_passthrough E tt tt tt sample.people_dao sample.people_cruds
              [] (sample.status codes.FailedPrecondition) eq_refl eq_refl)
    as (Hd & Hc & _).
  split; [exact Hd | exact Hc].
Defined.

(** X10: in every environment, an error returned by the rich variant's
    Search comes with an empty result and is of the BadRequest kind or the
    backend's own; an error returned by the plain variant's Search comes
    with an empty result unless it is the Skipped sentinel, and is of the
    BadRequest kind, the Skipped kind or the backend's own. Search returns
    BadRequest for a non-empty predicate list only. *)
Theorem search_error_shape `{Shape Document} {W : Type}
    (E : env Document W) (w : W) (cd : dao.DAO) (cc : cruds.CRUDS)
    (qd : list dao.Query) (qc : list cruds.Query) (ds : list Document) (e : error) :
  (returned (run E (dao.Search cd qd) w) = Some (ds, Some e) ->
   ds = [] /\ kind_of e ∈ [KBadRequest; KPassthrough] /\
   (kind_of e = KBadRequest -> qd <> [])) /\
  (returned (run E (cruds.Search cc qc) w) = Some (ds, Some e) ->
   (ds = [] \/ e = ErrDocumentSkipped) /\
   kind_of e ∈ [KBadRequest; KSkipped; KPassthrough] /\
   (kind_of e = KBadRequest -> qc <> [])).
Proof.
  split.
  - destruct (dao_search_run E cd qd w) as [w' ->].
    destruct (E (GetAll (dao_query cd qd)) w) as [[snapshots [b |]] w1]; simpl;
      [| discriminate].
    intros [= <- <-]. split; [reflexivity |].
    destruct qd as [| q rest]; simpl.
    + split; [set_solver | discriminate].
    + destruct (decide (status_Code b = codes.FailedPrecondition)); simpl;
        (split; [set_solver | done]).
  - rewrite cruds_search_run. simpl.
    destruct (E (GetAll (cruds_query cc qc)) w) as [[snapshots [b |]] w1]; simpl.
    + intros [= <- <-]. split; [by left |].
      destruct qc as [| q rest]; simpl.
      * split; [set_solver | discriminate].
      * destruct (decide (status_Code b = codes.FailedPrecondition)); simpl;
          (split; [set_solver | done]).
    + rewrite cruds_collect_eq. intros [= <- He].
      destruct (last snapshots) as [s |]; [| discriminate].
      destruct (corrupt s); [| discriminate]. injection He as <-.
      split; [by right |]. split; [set_solver | discriminate].
Qed.

Lemma search_error_shape_witness :
  let E := sample.stub_env
             (sample.with_getall ([sample.ada; sample.bad], None) sample.healthy) in
  ([sample.mkPerson "Ada" 36] = [] \/ ErrDocumentSkipped = ErrDocumentSkipped) /\
  kind_of ErrDocumentSkipped ∈ [KBadRequest; KSkipped; KPassthrough].
Proof.
  intros E.
  destruct (search_error_shape E tt sample.people_dao sample.people_cruds
              sample.mixed_dao sample.mixed_cruds [sample.mkPerson "Ada" 36]
              ErrDocumentSkipped) as [_ Hplain].
  destruct Hplain as (Hshape & Hkind & _); [by vm_compute |].
  split; [exact Hshape | exact Hkind].
Defined.

(** ** Further properties: Create and Update *)

Section WriteAll.

Context `{Shape Document} {W : Type}.
Implicit Types (E : env Document W) (w : W).

(** The rich variant's Create in every environment. *)
Lemma dao_create_run E c id document w :
  let now := (E TimeNow w).1 in
  let w0 := (E TimeNow w).2 in
  let r := (E (DocCreate (dao.path c) id document) w0).1 in
  let w1 := (E (DocCreate (dao.path c) id document) w0).2 in
  let r2 := (E (DocUpdate (dao.path c) id (timestamps now)) w1).1 in
  let w2 := (E (DocUpdate (dao.path c) id (timestamps now)) w1).2 in
  run E (dao.Create c id document) w =
    match r with
    | Some b =>
        mkOutcome
          (Some (Some (if decide (status_Code b = codes.AlreadyExists)
                       then Wrap (dao.cause_conflict id) ehandler.ErrConflict
                       else Client b)))
          w1 [TimeNow; DocCreate (dao.path c) id document]
    | None =>
        mkOutcome (Some (Client <$> r2)) w2
          [TimeNow; DocCreate (dao.path c) id document;
           DocUpdate (dao.path c) id (timestamps now)]
    end.
Proof.
  intros now w0 r w1 r2 w2.
  destruct r as [b |] eqn:Hr.
  - apply dao_create_failed with (now := now) (w0 := w0).
    + apply surjective_pairing.
    + subst w1. rewrite <- Hr. apply surjective_pairing.
  - apply dao_create_created with (w0 := w0) (w1 := w1).
    + apply surjective_pairing.
    + subst w1. rewrite <- Hr. apply surjective_pairing.
    + apply surjective_pairing.
Qed.

(** The rich variant's Update in every environment. *)
Lemma dao_update_run_all E c id update w :
  let kvs := (ranged E update w).1 in
  let w1 := (ranged E update w).2 in
  let now := (E TimeNow w1).1 in
  let w2 := (E TimeNow w1).2 in
  let sent := map instruction kvs ++ [touch now] in
  run E (dao.Update c id update) w =
    mkOutcome (Some (Client <$> (E (DocUpdate (dao.path c) id sent) w2).1))
      (E (DocUpdate (dao.path c) id sent) w2).2
      (range_calls update ++ [TimeNow; DocUpdate (dao.path c) id sent]).
Proof.
  intros kvs w1 now w2 sent.
  apply dao_update_run with (w1 := w1) (w2 := w2); apply surjective_pairing.
Qed.

Lemma cruds_update_run_all E c id updates w :
  run E (cruds.Update c id updates) w =
    mkOutcome (Some (Client <$> (E (DocUpdate (cruds.path c) id updates) w).1))
      (E (DocUpdate (cruds.path c) id updates) w).2
      [DocUpdate (cruds.path c) id updates].
Proof. apply cruds_update_run, surjective_pairing. Qed.

Lemma cruds_create_run_all E c id document w :
  run E (cruds.Create c id document) w =
    mkOutcome
      (Some (match (E (DocCreate (cruds.path c) id document) w).1 with
             | Some b => Some (if decide (status_Code b = codes.AlreadyExists)
                               then ErrDocumentAlreadyExists
                               else Client b)
             | None => None
             end))
      (E (DocCreate (cruds.path c) id document) w).2
      [DocCreate (cruds.path c) id document].
Proof. apply cruds_create_run, surjective_pairing. Qed.

End WriteAll.

(** X11: in every environment the rich variant's Create issues the
    timestamp follow-up exactly when the backend's create succeeded, and
    returns nil exactly when both backend calls succeeded; the plain
    variant's Create issues the create alone and returns nil exactly when it
    succeeded. *)
Theorem create_followup_iff_created `{Shape Document} {W : Type}
    (E : env Document W) (w : W) (cd : dao.DAO) (cc : cruds.CRUDS)
    (id : string) (document : Document) :
  let now := (E TimeNow w).1 in
  let w0 := (E TimeNow w).2 in
  let r := (E (DocCreate (dao.path cd) id document) w0).1 in
  let w1 := (E (DocCreate (dao.path cd) id document) w0).2 in
  let r2 := (E (DocUpdate (dao.path cd) id (timestamps now)) w1).1 in
  backend_calls (calls (run E (dao.Create cd id document) w)) =
    (if r is Some _
     then [DocCreate (dao.path cd) id document]
     else [DocCreate (dao.path cd) id document;
           DocUpdate (dao.path cd) id (timestamps now)]) /\
  (returned (run E (dao.Create cd id document) w) = Some None <-> r = None /\ r2 = None) /\
  calls (run E (cruds.Create cc id document) w) = [DocCreate (cruds.path cc) id document] /\
  (returned (run E (cruds.Create cc id document) w) = Some None <->
   (E (DocCreate (cruds.path cc) id document) w).1 = None).
Proof.
  intros now w0 r w1 r2.
  rewrite dao_create_run, cruds_create_run_all. fold now w0 r w1 r2.
  split; [by destruct r |]. split.
  - destruct r as [b |]; simpl.
    + split; [| by intros [? _]].
      destruct (decide (status_Code b = codes.AlreadyExists)); discriminate.
    + destruct r2; simpl; split; try done. by intros [_ ?].
  - split; [reflexivity |]. simpl.
    destruct (E (DocCreate (cruds.path cc) id document) w) as [[b |] wc]; simpl;
      [| by split].
    split; [| done]. destruct (decide (status_Code b = codes.AlreadyExists)); discriminate.
Qed.

Lemma create_followup_iff_created_witness :
  let E := sample.stub_env sample.healthy in
  returned (run E (dao.Create sample.people_dao "ada" (sample.mkPerson "Ada" 36)) tt) =
    Some None /\
  returned (run E (cruds.Create sample.people_cruds "ada" (sample.mkPerson "Ada" 36)) tt) =
    Some None.
Proof.
  intros E.
  destruct (create_followup_iff_created E tt sample.people_dao sample.people_cruds
              "ada" (sample.mkPerson "Ada" 36)) as (_ & [_ Hd] & _ & [_ Hc]).
  split; [apply Hd; by split | by apply Hc].
Defined.

(** X12: in every environment an error of Create is of the Conflict kind
    or the backend's own, and it is of the Conflict kind exactly when the
    backend's create failed with the status AlreadyExists: an error of the
    rich variant's follow-up is returned as it is, whatever its status. An
    error of Read is of the NotFound kind, of the Corrupt kind (rich
    variant only) or the backend's own. *)
Theorem create_read_error_kinds `{Shape Document} {W : Type}
    (E : env Document W) (w : W) (cd : dao.DAO) (cc : cruds.CRUDS)
    (id : string) (document : Document) (d : Document) (e : error) :
  (returned (run E (dao.Create cd id document) w) = Some (Some e) ->
   kind_of e ∈ [KConflict; KPassthrough] /\
   (kind_of e = KConflict <->
    exists b, (E (DocCreate (dao.path cd) id document) (E TimeNow w).2).1 = Some b /\
              status_Code b = codes.AlreadyExists)) /\
  (returned (run E (cruds.Create cc id document) w) = Some (Some e) ->
   kind_of e ∈ [KConflict; KPassthrough] /\
   (kind_of e = KConflict <->
    exists b, (E (DocCreate (cruds.path cc) id document) w).1 = Some b /\
              status_Code b = codes.AlreadyExists)) /\
  (returned (run E (dao.Read cd id) w) = Some (d, Some e) ->
   kind_of e ∈ [KNotFound; KCorrupt; KPassthrough]) /\
  (returned (run E (cruds.Read cc id) w) = Some (d, Some e) ->
   kind_of e ∈ [KNotFound; KPassthrough]).
Proof.
  split; [| split; [| split]].
  - rewrite dao_create_run.
    destruct (E (DocCreate (dao.path cd) id document) (E TimeNow w).2) as [[b |] w1]; simpl.
    + destruct (decide (status_Code b = codes.AlreadyExists)) as [Hb | Hb];
        intros [= <-]; simpl; (split; [set_solver |]).
      * split; [by eauto | done].
      * split; [done | by intros (b' & [= <-] & ?)].
    + destruct (E (DocUpdate _ _ _) _) as [[b2 |] w2]; simpl; [| discriminate].
      intros [= <-]. simpl. split; [set_solver |].
      split; [done | by intros (b' & [=] & _)].
  - rewrite cruds_create_run_all. simpl.
    destruct (E (DocCreate (cruds.path cc) id document) w) as [[b |] wc]; simpl;
      [| discriminate].
    destruct (decide (status_Code b = codes.AlreadyExists)) as [Hb | Hb];
      intros [= <-]; simpl; (split; [set_solver |]).
    + split; [by eauto | done].
    + split; [done | by intros (b' & [= <-] & ?)].
  - rewrite dao_read_run. simpl.
    destruct (E (DocGet (dao.path cd) id) w) as [[[s |] [b |]] w1]; simpl;
      try discriminate.
    + intros [= _ <-]. destruct (firestore.Exists s); simpl; set_solver.
    + destruct (DataTo s); [discriminate |]. intros [= _ <-]. simpl. set_solver.
  - rewrite cruds_read_run. simpl.
    destruct (E (DocGet (cruds.path cc) id) w) as [[[s |] [b |]] w1]; simpl;
      try discriminate.
    + intros [= _ <-]. destruct (firestore.Exists s); simpl; set_solver.
    + destruct (DataTo s); [discriminate |]. intros [= _ <-]. simpl. set_solver.
Qed.

Lemma create_read_error_kinds_witness :
  let E := sample.stub_env
             (sample.with_update (Some (sample.status codes.AlreadyExists)) sample.healthy) in
  kind_of (Client (sample.status codes.AlreadyExists)) ∈ [KConflict; KPassthrough].
Proof.
  intros E.
  destruct (create_read_error_kinds E tt sample.people_dao sample.people_cruds "ada"
              (sample.mkPerson "Ada" 36) (sample.mkPerson "" 0)
              (Client (sample.status codes.AlreadyExists))) as [Hcreate _].
  destruct Hcreate as [Hkind _]; [reflexivity | exact Hkind].
Defined.

(** ** Further properties: all methods *)

(** X14: in every environment the rich variant's Create and Update read
    the clock once per call, whether the backend calls succeed or not; no
    other method of the rich variant and no method of the plain variant
    reads the clock. *)
Theorem clock_read_once `{Shape Document} {W : Type}
    (E : env Document W) (w : W) (cd : dao.DAO) (cc : cruds.CRUDS)
    (id : string) (document : Document) (update : t_Update)
    (updates : list firestore.Update) (qd : list dao.Query) (qc : list cruds.Query) :
  clock_reads (calls (run E (dao.Create cd id document) w)) = [TimeNow] /\
  clock_reads (calls (run E (dao.Update cd id update) w)) = [TimeNow] /\
  clock_reads (calls (run E (dao.Read cd id) w)) = [] /\
  clock_reads (calls (run E (dao.Delete cd id) w)) = [] /\
  clock_reads (calls (run E (dao.Search cd qd) w)) = [] /\
  clock_reads (calls (run E (cruds.Create cc id document) w)) = [] /\
  clock_reads (calls (run E (cruds.Update cc id updates) w)) = [] /\
  clock_reads (calls (run E (cruds.Read cc id) w)) = [] /\
  clock_reads (calls (run E (cruds.Delete cc id) w)) = [] /\
  clock_reads (calls (run E (cruds.Search cc qc) w)) = [].
Proof.
  rewrite dao_create_run, cruds_create_run_all, dao_update_run_all, cruds_update_run_all,
    dao_delete_run, cruds_delete_run, cruds_search_run, dao_read_run, cruds_read_run.
  destruct (dao_search_run E cd qd w) as [w' ->].
  repeat split; try reflexivity.
  - by destruct (E (DocCreate (dao.path cd) id document) (E TimeNow w).2) as [[b |] w1].
  - by destruct update.
  - destruct (E (GetAll (dao_query cd qd)) w) as [[snapshots [b |]] w1]; simpl;
      [reflexivity |].
    apply (notices_clock_reads (Named (dao.log cd) "Search") snapshots).
Qed.

(** X15: in every environment, every call that an accessor built by
    [NewDAO] or [NewCRUDS] sends to the backend stays inside the collection
    path given to the constructor, and every call that addresses a document
    addresses the one under the caller's key. *)
Theorem calls_stay_in_collection `{Shape Document} {W : Type}
    (E : env Document W) (w : W) (path log : string)
    (id : string) (document : Document) (update : t_Update)
    (updates : list firestore.Update) (qd : list dao.Query) (qc : list cruds.Query) :
  let cd := dao.NewDAO path log in
  let cc := cruds.NewCRUDS path in
  Forall (within path (Some id)) (calls (run E (dao.Create cd id document) w)) /\
  Forall (within path (Some id)) (calls (run E (dao.Read cd id) w)) /\
  Forall (within path (Some id)) (calls (run E (dao.Update cd id update) w)) /\
  Forall (within path (Some id)) (calls (run E (dao.Delete cd id) w)) /\
  Forall (within path None) (calls (run E (dao.Search cd qd) w)) /\
  Forall (within path (Some id)) (calls (run E (cruds.Create cc id document) w)) /\
  Forall (within path (Some id)) (calls (run E (cruds.Read cc id) w)) /\
  Forall (within path (Some id)) (calls (run E (cruds.Update cc id updates) w)) /\
  Forall (within path (Some id)) (calls (run E (cruds.Delete cc id) w)) /\
  Forall (within path None) (calls (run E (cruds.Search cc qc) w)).
Proof.
  intros cd cc.
  rewrite dao_create_run, cruds_create_run_all, dao_update_run_all, cruds_update_run_all,
    dao_delete_run, cruds_delete_run, cruds_search_run, dao_read_run, cruds_read_run.
  destruct (dao_search_run E cd qd w) as [w' ->].
  repeat split; try (simpl; repeat constructor; done).
  - destruct (E (DocCreate (dao.path cd) id document) (E TimeNow w).2) as [[b |] w1];
      simpl; repeat constructor; done.
  - destruct update; simpl; repeat constructor; done.
  - destruct (E (GetAll (dao_query cd qd)) w) as [[snapshots [b |]] w1]; simpl.
    + by repeat constructor.
    + constructor; [reflexivity | apply notices_within].
Qed.

(** ** Further properties: the update translator *)

(** X16: [fromUpdate] loses nothing and invents nothing: when [range]
    yields the entries of the mapping, each once, the instruction list read
    back as a mapping is the input, an instruction is in the list exactly
    when the mapping holds its value under its path, and the list is as long
    as the mapping is large; its only operation is the [range], and for a
    nil mapping it performs none and returns the empty list. *)
Theorem fromUpdate_round_trip `{Shape Document} {W : Type}
    (E : env Document W) (w w1 : W) (m : gmap string firestore.Value)
    (kvs : list (string * firestore.Value)) :
  E (MapRange m) w = (kvs, w1) ->
  kvs ≡ₚ map_to_list m ->
  exists fus,
    run E (dao.fromUpdate (Some m)) w = mkOutcome (Some fus) w1 [MapRange m] /\
    list_to_map (map entry fus) = m /\
    (forall k v, firestore.mkUpdate k v ∈ fus <-> m !! k = Some v) /\
    length fus = size m /\
    run E (dao.fromUpdate None) w = mkOutcome (Some []) w [].
Proof.
  intros Hrange Hperm. exists (map instruction kvs).
  rewrite (dao_fromUpdate_run E (Some m) w kvs w1 Hrange).
  rewrite entry_instruction.
  split; [reflexivity |]. split.
  { rewrite <- (list_to_map_to_list m). apply list_to_map_proper; [| done].
    rewrite Hperm. apply NoDup_fst_map_to_list. }
  split.
  { intros k v. rewrite <- elem_of_map_to_list, <- Hperm.
    change (map instruction kvs) with (instruction <$> kvs).
    rewrite list_elem_of_fmap. split.
    - intros ([k' v'] & [= -> ->] & Hin). exact Hin.
    - intros Hin. by exists (k, v). }
  split; [by rewrite length_map, Hperm, length_map_to_list |].
  reflexivity.
Qed.

Lemma fromUpdate_round_trip_witness :
  let E := sample.stub_env sample.healthy in
  let m : gmap string firestore.Value :=
    <["name" := firestore.VString "Ada"]> (<["age" := firestore.VInt 37]> ∅) in
  exists fus,
    run E (dao.fromUpdate (Some m)) tt = mkOutcome (Some fus) tt [MapRange m] /\
    list_to_map (map entry fus) = m /\
    length fus = size m.
Proof.
  intros E m.
  destruct (fromUpdate_round_trip E tt tt m (map_to_list m) eq_refl)
    as (fus & Hrun & Hback & _ & Hlen & _); [reflexivity |].
  exists fus. split; [exact Hrun | split; [exact Hback | exact Hlen]].
Defined.

(** X17: in every environment the rich variant's Update of a nil mapping
    behaves as that of an empty one: it reads the clock, sends the backend
    the single instruction that sets [updated] to that time, and returns
    what the backend answers. *)
Theorem update_nil_mapping `{Shape Document} {W : Type}
    (E : env Document W) (w : W) (c : dao.DAO) (id : string) :
  let now := (E TimeNow w).1 in
  let w1 := (E TimeNow w).2 in
  run E (dao.Update c id None) w =
    mkOutcome (Some (Client <$> (E (DocUpdate (dao.path c) id [touch now]) w1).1))
      (E (DocUpdate (dao.path c) id [touch now]) w1).2
      [TimeNow; DocUpdate (dao.path c) id [touch now]].
Proof. intros now w1. by rewrite dao_update_run_all. Qed.

(** X18: the plain variant's Update hands the backend the caller's list
    as it is, the empty list included, without reading the clock; given the
    instructions the rich variant makes of a mapping, it sends exactly the
    rich variant's list without the final [updated] instruction. *)
Theorem update_variants_differ_by_timestamp `{Shape Document} {W : Type}
    (E : env Document W) (w w1 w2 : W) (cd : dao.DAO) (cc : cruds.CRUDS)
    (id : string) (update : t_Update) (updates : list firestore.Update)
    (kvs : list (string * firestore.Value)) (now : Z) :
  ranged E update w = (kvs, w1) ->
  E TimeNow w1 = (now, w2) ->
  calls (run E (cruds.Update cc id updates) w) = [DocUpdate (cruds.path cc) id updates] /\
  backend_calls (calls (run E (dao.Update cd id update) w)) =
    [DocUpdate (dao.path cd) id (map instruction kvs ++ [touch now])] /\
  backend_calls (calls (run E (cruds.Update cc id (map instruction kvs)) w)) =
    [DocUpdate (cruds.path cc) id (map instruction kvs)].
Proof.
  intros Hrange Hnow.
  rewrite !cruds_update_run_all, dao_update_run_all, Hrange. simpl. rewrite Hnow. simpl.
  repeat split. unfold backend_calls. rewrite List.filter_app. by destruct update.
Qed.

Lemma update_variants_differ_by_timestamp_witness :
  let E := sample.stub_env sample.healthy in
  calls (run E (cruds.Update sample.people_cruds "ada" []) tt) =
    [DocUpdate "people" "ada" []] /\
  backend_calls (calls (run E (dao.Update sample.people_dao "ada" None) tt)) =
    [DocUpdate "people" "ada" [touch 1700000000]].
Proof.
  intros E.
  destruct (update_variants_differ_by_timestamp E tt tt tt sample.people_dao
              sample.people_cruds "ada" None [] [] 1700000000 eq_refl eq_refl)
    as (Hc & Hd & _).
  split; [exact Hc | exact Hd].
Defined.

(** ** Further properties: the operator translator *)

(** What a result of [fro] says about the input. *)
Lemma fro_inv input :
  (fro input = "==" /\ Strings.ToUpper input = "EQ") \/
  (fro input = "!=" /\ Strings.ToUpper input = "NE") \/
  (fro input = "<" /\ Strings.ToUpper input = "LT") \/
  (fro input = ">" /\ Strings.ToUpper input = "GT") \/
  (fro input = "<=" /\ Strings.ToUpper input = "LE") \/
  (fro input = ">=" /\ Strings.ToUpper input = "GE") \/
  fro input = "UNKNOWN".
Proof.
  unfold fro.
  repeat match goal with
         | |- context [String.eqb ?a ?b] =>
             destruct (String.eqb_spec a b) as [Heq | _]; [by intuition |]
         end.
  by intuition.
Qed.

(** X19: the translation forgets the letter case of a token and nothing
    else: two inputs of which one is translated to a native operator have
    the same translation exactly when they are the same token up to letter
    case, so distinct tokens never share a native operator. *)
Theorem fro_injective_on_tokens (a b : string) :
  fro a <> "UNKNOWN" ->
  (fro a = fro b <-> Strings.ToUpper a = Strings.ToUpper b).
Proof.
  intros Ha. split.
  - intros Heq.
    destruct (fro_inv a) as [[Hfa Hua] | [[Hfa Hua] | [[Hfa Hua] | [[Hfa Hua] |
                             [[Hfa Hua] | [[Hfa Hua] | Hfa]]]]]]; [.. | done];
      (destruct (fro_inv b) as [[Hfb Hub] | [[Hfb Hub] | [[Hfb Hub] | [[Hfb Hub] |
                               [[Hfb Hub] | [[Hfb Hub] | Hfb]]]]]];
       rewrite Hfa, Hfb in Heq; try discriminate Heq; by rewrite Hua, Hub).
  - intros Heq. unfold fro. by rewrite Heq.
Qed.

Lemma fro_injective_on_tokens_witness :
  fro "Le" = fro "lE" /\ Strings.ToUpper "le" <> Strings.ToUpper "lt".
Proof.
  split.
  - apply (fro_injective_on_tokens "Le" "lE"); [discriminate | reflexivity].
  - intros Heq. apply (fro_injective_on_tokens "le" "lt") in Heq; discriminate.
Defined.

(** X20: [fro] returns one of seven strings, and none of them is a token:
    an operator that is already in the backend's native spelling, such as
    the result of a first translation, is translated to "UNKNOWN". *)
Theorem fro_rejects_native_operators (input : string) :
  fro input ∈ fro_range /\
  fro (fro input) = "UNKNOWN" /\
  Forall (fun native => fro native = "UNKNOWN") fro_range.
Proof.
  assert (Hrange : Forall (fun native => fro native = "UNKNOWN") fro_range).
  { unfold fro_range. repeat constructor. }
  assert (Hin : fro input ∈ fro_range).
  { unfold fro_range.
    destruct (fro_inv input) as [[-> _] | [[-> _] | [[-> _] | [[-> _] |
                                 [[-> _] | [[-> _] | ->]]]]]]; set_solver. }
  split; [exact Hin |]. split; [| exact Hrange].
  rewrite Forall_forall in Hrange. by apply Hrange.
Qed.

(** ** Further properties: what the notices and the kinds tell *)

Lemma notices_content `{Shape Document} log snapshots :
  Forall (fun o : op Document =>
            exists s b,
              o = LogError log s (Wrap (dao.cause_corrupt (Error_text b)) ehandler.ErrCorrupt) /\
              s ∈ snapshots /\ DataTo s = inr b)
         (notices log snapshots).
Proof.
  induction snapshots as [| s rest IH]; simpl; [constructor |].
  assert (IH' : Forall (fun o : op Document =>
            exists s' b,
              o = LogError log s' (Wrap (dao.cause_corrupt (Error_text b)) ehandler.ErrCorrupt) /\
              s' ∈ s :: rest /\ DataTo s' = inr b) (notices log rest)).
  { eapply Forall_impl; [exact IH |]. intros o (s' & b & -> & Hin & Hd).
    exists s', b. repeat split; [by right | done]. }
  destruct (DataTo s) as [d | b] eqn:Hd; [exact IH' |].
  constructor; [| exact IH']. exists s, b. repeat split; [by left | done].
Qed.

(** X21: every notice that the Search of an accessor built by [NewDAO]
    logs goes to the logger named after the constructor's logger, then
    "firestore.DAO", then "Search"; it carries one of the snapshots the
    backend returned, one that does not decode, and a Corrupt error whose
    cause quotes the text of that snapshot's decoding error. *)
Theorem rich_search_notice_content `{Shape Document} {W : Type}
    (E : env Document W) (w w1 : W) (path log : string) (queries : list dao.Query)
    (snapshots : list firestore.DocumentSnapshot) :
  let c := dao.NewDAO path log in
  E (GetAll (dao_query c queries)) w = ((snapshots, None), w1) ->
  Forall (fun o : op Document =>
            exists s b,
              o = LogError (Named (Named log "firestore.DAO") "Search") s
                    (Wrap ("(firestore serialization failed: " +:+ Error_text b +:+ ")")
                       ehandler.ErrCorrupt) /\
              s ∈ snapshots /\ DataTo s = inr b)
         (log_calls (calls (run E (dao.Search c queries) w))).
Proof.
  intros c HE. destruct (dao_search_fetched _ _ _ _ _ _ HE) as [w' ->]. simpl.
  fold (log_calls (notices (Named (dao.log c) "Search") snapshots)).
  rewrite notices_log_calls. apply notices_content.
Qed.

Lemma rich_search_notice_content_witness :
  let E := sample.stub_env
             (sample.with_getall ([sample.ada; sample.bad], None) sample.healthy) in
  Forall (fun o : op sample.Person =>
            exists s b,
              o = LogError "svc.firestore.DAO.Search" s
                    (Wrap ("(firestore serialization failed: " +:+ Error_text b +:+ ")")
                       ehandler.ErrCorrupt) /\
              s ∈ [sample.ada; sample.bad] /\ DataTo s = inr b)
         (log_calls (calls (run E (dao.Search (dao.NewDAO "people" "svc") []) tt))).
Proof.
  intros E.
  exact (rich_search_notice_content E tt tt "people" "svc" []
           [sample.ada; sample.bad] eq_refl).
Defined.

(** X22: in every environment the kind of an error of Read tells what the
    backend answered. In both variants the error is of the NotFound kind
    exactly when the Get returned an error next to a snapshot that does not
    exist; in the rich variant it is of the Corrupt kind exactly when the
    Get returned no error and a snapshot that does not decode. *)
Theorem read_kind_tells_answer `{Shape Document} {W : Type}
    (E : env Document W) (w : W) (cd : dao.DAO) (cc : cruds.CRUDS) (id : string)
    (d : Document) (e : error) :
  (returned (run E (dao.Read cd id) w) = Some (d, Some e) ->
   (kind_of e = KNotFound <->
    exists s b, (E (DocGet (dao.path cd) id) w).1 = (Some s, Some b) /\
                firestore.Exists s = false) /\
   (kind_of e = KCorrupt <->
    exists s b, (E (DocGet (dao.path cd) id) w).1 = (Some s, None) /\
                DataTo s = inr b)) /\
  (returned (run E (cruds.Read cc id) w) = Some (d, Some e) ->
   (kind_of e = KNotFound <->
    exists s b, (E (DocGet (cruds.path cc) id) w).1 = (Some s, Some b) /\
                firestore.Exists s = false)).
Proof.
  split.
  - rewrite dao_read_run.
    destruct (E (DocGet (dao.path cd) id) w) as [[[s |] [b |]] w1]; simpl;
      try discriminate.
    + intros [= _ <-]. destruct (firestore.Exists s) eqn:Hs; simpl.
      * split; (split; [done |]); intros (s' & b' & [= <- ?] & ?); congruence.
      * split; [split; [by eauto | done] |].
        split; [done |]. by intros (s' & b' & [=] & _).
    + destruct (DataTo s) as [d' | b] eqn:Hd; [discriminate |]. intros [= _ <-]. simpl.
      split; [split; [done | by intros (s' & b' & [=] & _)] |].
      split; [by eauto | done].
  - rewrite cruds_read_run.
    destruct (E (DocGet (cruds.path cc) id) w) as [[[s |] [b |]] w1]; simpl;
      try discriminate.
    + intros [= _ <-]. destruct (firestore.Exists s) eqn:Hs; simpl.
      * split; [done |]. intros (s' & b' & [= <- ?] & ?); congruence.
      * split; [by eauto | done].
    + destruct (DataTo s) as [d' | b] eqn:Hd; [discriminate |]. intros [= _ <-]. simpl.
      split; [done | by intros (s' & b' & [=] & _)].
Qed.

Lemma read_kind_tells_answer_witness :
  let E := sample.stub_env
             (sample.with_get (Some (sample.absent "zoe"), Some (sample.status codes.Unavailable))
                sample.healthy) in
  kind_of ErrDocumentNotFound = KNotFound <->
  exists s b, (E (DocGet "people" "zoe") tt).1 = (Some s, Some b) /\
              firestore.Exists s = false.
Proof.
  intros E.
  refine (proj2 (read_kind_tells_answer E tt sample.people_dao sample.people_cruds "zoe"
                   (sample.mkPerson "" 0) ErrDocumentNotFound) _).
  reflexivity.
Defined.
